(** * Doughboard: the order and ad-spend aggregation of [server.js]

    A shallow embedding of the helper functions of [src/server.js]
    ([calculateDashboardMetrics], [fetchMetaAdSpend], [fetchGoogleAdSpend])
    and of the loops of the [/api/ad-spend] and [/api/upload-cogs] handlers,
    followed by the properties the specification states about them.

    JavaScript numbers are IEEE 754 binary64 values: they are modelled by
    Rocq's primitive [float], whose operations are specified by
    [FloatAxioms] over [SpecFloat].  A JavaScript object used as a
    dictionary is a [gmap] from property names to values, a [Set] is a
    [gset]. *)

From Stdlib Require Import ZArith Floats String Ascii List Bool Lia.
From stdpp Require Import gmap strings list.

Local Open Scope string_scope.
Local Open Scope list_scope.
Local Open Scope Z_scope.

(** ** The JavaScript values and built-ins the program uses *)

Module JS.

(** A field of a JSON record that holds text: absent ([undefined]), [null],
    or a string.  Order prices, e-mail addresses, SKUs and the cells of a CSV
    record are of this kind. *)
Inductive JSText : Type :=
| Undefined
| Null
| Text (s : string).

Global Instance JSText_eq_dec : EqDecision JSText.
Proof. solve_decision. Defined.

Global Instance JSText_countable : Countable JSText :=
  inj_countable'
    (fun v => match v with
              | Undefined => inl false
              | Null => inl true
              | Text s => inr s
              end)
    (fun c => match c with
              | inl false => Undefined
              | inl true => Null
              | inr s => Text s
              end)
    (fun v => match v with Undefined | Null | Text _ => eq_refl end).

(** What a property read such as [customCOGS[sku]] evaluates to: nothing, a
    number, or an object (a member inherited from [Object.prototype]). *)
Inductive JSValue : Type :=
| JSUndefined
| JSNumber (x : float)
| JSObject.

Definition NaN : float := nan.

(** [ToString] on text fields. *)
Definition ToString (v : JSText) : string :=
  match v with
  | Undefined => "undefined"
  | Null => "null"
  | Text s => s
  end.

(** Truthiness, as tested by [if (v)], [a || b] and [c ? x : y]. *)
Definition number_truthy (x : float) : bool :=
  negb (PrimFloat.is_zero x || PrimFloat.is_nan x).

Definition text_truthy (v : JSText) : bool :=
  match v with
  | Text (String _ _) => true
  | _ => false
  end.

Definition ToBoolean (v : JSValue) : bool :=
  match v with
  | JSUndefined => false
  | JSNumber x => number_truthy x
  | JSObject => true
  end.

(** [ToNumber], applied by [*] to its operands. *)
Definition ToNumber (v : JSValue) : float :=
  match v with
  | JSUndefined => NaN
  | JSNumber x => x
  | JSObject => NaN
  end.

(** [a || b] on text fields. *)
Definition or_else (a b : JSText) : JSText :=
  if text_truthy a then a else b.

(** The Number nearest to an integer (array lengths, numeric literals). *)
Definition Number_of_Z (z : Z) : float :=
  SF2Prim (binary_normalize prec emax z 0 false).

(** *** [parseFloat]

    [parseFloat(v)] converts [v] to a string, skips leading white space and
    reads the longest prefix that is a [StrDecimalLiteral]; without such a
    prefix the result is [NaN].  Strings are sequences of ASCII characters
    here. *)

Definition is_white_space (c : ascii) : bool :=
  let n := nat_of_ascii c in
  ((9 <=? n) && (n <=? 13) || (n =? 32))%nat.

Fixpoint trim_start (s : string) : string :=
  match s with
  | String c s' => if is_white_space c then trim_start s' else s
  | EmptyString => s
  end.

Definition digit_of (c : ascii) : option Z :=
  let n := nat_of_ascii c in
  if ((48 <=? n) && (n <=? 57))%nat then Some (Z.of_nat (n - 48)) else None.

(** [DecimalDigits], read greedily: the digits read so far as an integer, how
    many were read, and the rest of the input. *)
Fixpoint read_digits (s : string) (acc : Z) (count : Z) : Z * Z * string :=
  match s with
  | String c s' =>
      match digit_of c with
      | Some d => read_digits s' (10 * acc + d) (count + 1)
      | None => (acc, count, s)
      end
  | EmptyString => (acc, count, s)
  end.

Definition read_sign (s : string) : bool * string :=
  match s with
  | String "-" s' => (true, s')
  | String "+" s' => (false, s')
  | _ => (false, s)
  end.

(** [ExponentPart], optional: an exponent indicator counts only when a digit
    follows it (after an optional sign); otherwise the exponent is 0. *)
Definition read_exponent (s : string) : Z :=
  match s with
  | String c s' =>
      if (Ascii.eqb c "e" || Ascii.eqb c "E")%bool then
        let '(neg, s'') := read_sign s' in
        let '(e, n, _) := read_digits s'' 0 0 in
        if n =? 0 then 0 else if neg then - e else e
      else 0
  | EmptyString => 0
  end.

(** The decimal [m * 10^e10], rounded to the nearest binary64 (ties to
    even).  A negative exponent divides: the quotient keeps more than 60
    bits and a sticky bit records a non-zero remainder. *)
Definition round_decimal (neg : bool) (m e10 : Z) : spec_float :=
  if m =? 0 then S754_zero neg
  else if 0 <=? e10 then
    binary_normalize prec emax (cond_Zopp neg (m * 10 ^ e10)) 0 false
  else
    let d := 10 ^ (- e10) in
    let s := Z.log2 d + 64 in
    let '(q, r) := Z.div_eucl (m * 2 ^ s) d in
    let sticky := if r =? 0 then 0 else 1 in
    binary_normalize prec emax (cond_Zopp neg (2 * q + sticky)) (- (s + 1)) false.

(** [DecimalDigits . DecimalDigits? ExponentPart?], [. DecimalDigits
    ExponentPart?] or [DecimalDigits ExponentPart?]. *)
Definition parse_decimal (neg : bool) (s : string) : spec_float :=
  let '(ip, ni, s1) := read_digits s 0 0 in
  match s1 with
  | String "." s2 =>
      let '(m, nf, s3) := read_digits s2 ip 0 in
      if (ni =? 0) && (nf =? 0) then S754_nan
      else round_decimal neg m (read_exponent s3 - nf)
  | _ =>
      if ni =? 0 then S754_nan
      else round_decimal neg ip (read_exponent s1)
  end.

Definition parseFloat_string (input : string) : float :=
  let '(neg, s) := read_sign (trim_start input) in
  if String.prefix "Infinity" s then SF2Prim (S754_infinity neg)
  else SF2Prim (parse_decimal neg s).

Definition parseFloat (v : JSText) : float := parseFloat_string (ToString v).

(** [isNaN] on a number. *)
Definition isNaN (x : float) : bool := PrimFloat.is_nan x.

(** *** Plain objects used as dictionaries

    An object literal [{}] filled by assignments, or an object read back from
    JSON, is a finite map of its own properties; a read that finds no own
    property continues in [Object.prototype]. *)

Definition Object_prototype : list string :=
  [ "constructor"; "__defineGetter__"; "__defineSetter__"; "hasOwnProperty";
    "__lookupGetter__"; "__lookupSetter__"; "isPrototypeOf";
    "propertyIsEnumerable"; "toString"; "valueOf"; "__proto__";
    "toLocaleString" ].

(** [obj[key]] *)
Definition Get (obj : gmap string float) (key : string) : JSValue :=
  match obj !! key with
  | Some x => JSNumber x
  | None => if bool_decide (key ∈ Object_prototype) then JSObject else JSUndefined
  end.

(** [obj[key] = x] on an object that started as [{}]: the inherited
    [__proto__] setter ignores a number; every other key becomes (or
    updates) an own property. *)
Definition Put (obj : gmap string float) (key : string) (x : float)
  : gmap string float :=
  if bool_decide (key = "__proto__") then obj else <[key := x]> obj.

End JS.

Export JS.

(** ** The data model *)

(** Orders arrive as JSON: prices are decimal strings, [quantity] is a
    number, [sku] and [email] are strings or [null]; any of the text fields
    may also be absent. *)
Record LineItem : Type := {
  sku : JSText;
  quantity : float;
  price : JSText
}.

Record Order : Type := {
  total_price : JSText;
  email : JSText;
  line_items : list LineItem
}.

(** A row of the store settings table.  [customCOGS] holds the own
    properties of the stored object: unit costs (numbers) by SKU, as the
    upload handler writes them.  [defaultCOGSPercentage] and [customCOGS]
    may each be [null]; the settings row itself may be missing
    ([option StoreSettings]). *)
Record StoreSettings : Type := {
  defaultCOGSPercentage : option float;
  customCOGS : option (gmap string float)
}.

(** The returned object.  [orderCount] is an array length, a natural
    number. *)
Record DashboardMetrics : Type := {
  totalRevenue : float;
  totalCOGS : float;
  grossProfit : float;
  newCustomerRevenue : float;
  returningCustomerRevenue : float;
  orderCount : nat;
  averageOrderValue : float
}.

(** ** [calculateDashboardMetrics] *)

(** [storeSettings?.customCOGS?.[sku]] *)
Definition customCOGS_of (storeSettings : option StoreSettings) (sku : JSText)
  : JSValue :=
  match storeSettings with
  | Some settings =>
      match customCOGS settings with
      | Some table => Get table (ToString sku)
      | None => JSUndefined
      end
  | None => JSUndefined
  end.

(** [storeSettings?.defaultCOGSPercentage] *)
Definition defaultCOGSPercentage_of (storeSettings : option StoreSettings)
  : JSValue :=
  match storeSettings with
  | Some settings =>
      match defaultCOGSPercentage settings with
      | Some pct => JSNumber pct
      | None => JSUndefined
      end
  | None => JSUndefined
  end.

(** The value of [unitCOGS] after the [if ... else if ...] of the inner
    loop. *)
Definition unitCOGS (storeSettings : option StoreSettings) (item : LineItem)
  : JSValue :=
  let price := parseFloat (price item) in
  if ToBoolean (customCOGS_of storeSettings (sku item)) then
    customCOGS_of storeSettings (sku item)
  else if ToBoolean (defaultCOGSPercentage_of storeSettings) then
    JSNumber (price * (ToNumber (defaultCOGSPercentage_of storeSettings) / 100))%float
  else
    JSNumber 0%float.

(** What one line item adds to [orderCOGS]: [unitCOGS * quantity]. *)
Definition itemCOGS (storeSettings : option StoreSettings) (item : LineItem)
  : float :=
  (ToNumber (unitCOGS storeSettings item) * quantity item)%float.

(** The inner [forEach]: [orderCOGS] after the line items, from 0. *)
Definition orderCOGS (storeSettings : option StoreSettings)
    (items : list LineItem) : float :=
  fold_left (fun acc item => (acc + itemCOGS storeSettings item)%float)
            items 0%float.

(** The variables the outer [forEach] updates. *)
Record Running : Type := {
  run_totalRevenue : float;
  run_totalCOGS : float;
  run_newCustomerRevenue : float;
  run_returningCustomerRevenue : float;
  customerEmails : gset JSText
}.

Definition start : Running := {|
  run_totalRevenue := 0;
  run_totalCOGS := 0;
  run_newCustomerRevenue := 0;
  run_returningCustomerRevenue := 0;
  customerEmails := ∅
|}.

(** One iteration of the outer [forEach]. *)
Definition processOrder (storeSettings : option StoreSettings)
    (st : Running) (order : Order) : Running :=
  let revenue := parseFloat (total_price order) in
  let totalRevenue' := (run_totalRevenue st + revenue)%float in
  let totalCOGS' :=
    (run_totalCOGS st + orderCOGS storeSettings (line_items order))%float in
  if text_truthy (email order) then
    if bool_decide (email order ∈ customerEmails st) then
      {| run_totalRevenue := totalRevenue';
         run_totalCOGS := totalCOGS';
         run_newCustomerRevenue := run_newCustomerRevenue st;
         run_returningCustomerRevenue :=
           (run_returningCustomerRevenue st + revenue)%float;
         customerEmails := customerEmails st |}
    else
      {| run_totalRevenue := totalRevenue';
         run_totalCOGS := totalCOGS';
         run_newCustomerRevenue := (run_newCustomerRevenue st + revenue)%float;
         run_returningCustomerRevenue := run_returningCustomerRevenue st;
         customerEmails := {[ email order ]} ∪ customerEmails st |}
  else
    {| run_totalRevenue := totalRevenue';
       run_totalCOGS := totalCOGS';
       run_newCustomerRevenue := run_newCustomerRevenue st;
       run_returningCustomerRevenue := run_returningCustomerRevenue st;
       customerEmails := customerEmails st |}.

Definition processOrders (storeSettings : option StoreSettings)
    (orders : list Order) (st : Running) : Running :=
  fold_left (processOrder storeSettings) orders st.

Definition calculateDashboardMetrics (orders : list Order)
    (storeSettings : option StoreSettings) : DashboardMetrics :=
  let st := processOrders storeSettings orders start in
  {| totalRevenue := run_totalRevenue st;
     totalCOGS := run_totalCOGS st;
     grossProfit := (run_totalRevenue st - run_totalCOGS st)%float;
     newCustomerRevenue := run_newCustomerRevenue st;
     returningCustomerRevenue := run_returningCustomerRevenue st;
     orderCount := length orders;
     averageOrderValue :=
       if (0 <? length orders)%nat
       then (run_totalRevenue st / Number_of_Z (Z.of_nat (length orders)))%float
       else 0%float |}.

(** ** Ad spend: [fetchMetaAdSpend], [fetchGoogleAdSpend] and the
    [/api/ad-spend] handler *)

Record AdAccount : Type := {
  platform : string;
  accountId : string;
  accessToken : string
}.

(** An element of [response.data.data]: one day of insights. *)
Record Insight : Type := {
  spend : JSText
}.

Record AdSpend : Type := {
  total : float;
  daily : list Insight
}.

(** An element of [breakdown]: [{ platform: ..., ...spend }]. *)
Record BreakdownEntry : Type := {
  entry_platform : string;
  entry_total : float;
  entry_daily : list Insight
}.

Record AdSpendSummary : Type := {
  totalAdSpend : float;
  breakdown : list BreakdownEntry
}.

Definition entry (label : string) (s : AdSpend) : BreakdownEntry :=
  {| entry_platform := label; entry_total := total s; entry_daily := daily s |}.

Definition fetchGoogleAdSpend (accountId accessToken : string)
    (startDate endDate : JSText) : AdSpend :=
  {| total := 0; daily := [] |}.

Section AdSpend.

(** The outcome of the HTTP read [axios.get] issues for an account and a
    date range: [Some days] when the request succeeds and
    [response.data.data] is the array [days], [None] when anything inside
    the [try] block throws. *)
Variable axios_get : string -> string -> JSText -> JSText -> option (list Insight).

Definition fetchMetaAdSpend (accountId accessToken : string)
    (startDate endDate : JSText) : AdSpend :=
  match axios_get accountId accessToken startDate endDate with
  | Some data =>
      {| total := fold_left (fun sum day => (sum + parseFloat (spend day))%float)
                            data 0%float;
         daily := data |}
  | None => {| total := 0; daily := [] |}
  end.

(** The body of one iteration of either [for] loop, on the pair
    [(totalAdSpend, adSpendData)]. *)
Definition record_spend (label : string) (s : AdSpend)
    (acc : float * list BreakdownEntry) : float * list BreakdownEntry :=
  ((fst acc + total s)%float, snd acc ++ [entry label s]).

Definition adSpend (adAccounts : list AdAccount) (startDate endDate : JSText)
  : AdSpendSummary :=
  let meta := filter (fun a => platform a = "meta") adAccounts in
  let google := filter (fun a => platform a = "google") adAccounts in
  let after_meta :=
    fold_left (fun acc account =>
                 record_spend "Meta"
                   (fetchMetaAdSpend (accountId account) (accessToken account)
                                     startDate endDate) acc)
              meta (0%float, []) in
  let after_google :=
    fold_left (fun acc account =>
                 record_spend "Google"
                   (fetchGoogleAdSpend (accountId account) (accessToken account)
                                       startDate endDate) acc)
              google after_meta in
  {| totalAdSpend := fst after_google; breakdown := snd after_google |}.

End AdSpend.

(** ** The [/api/upload-cogs] handler: from CSV records to [customCOGS] *)

(** A record of the parsed CSV ([columns: true]): column name to cell. *)
Definition Row : Type := gmap string string.

(** [row.name] *)
Definition cell (row : Row) (name : string) : JSText :=
  match row !! name with
  | Some s => Text s
  | None => Undefined
  end.

(** [row.SKU || row.sku || row.Sku] *)
Definition row_sku (row : Row) : JSText :=
  or_else (or_else (cell row "SKU") (cell row "sku")) (cell row "Sku").

(** [parseFloat(row.COGS || row.cogs || row.Cogs)] *)
Definition row_cogs (row : Row) : float :=
  parseFloat (or_else (or_else (cell row "COGS") (cell row "cogs")) (cell row "Cogs")).

(** The body of [records.forEach]. *)
Definition processRow (customCOGS : gmap string float) (row : Row)
  : gmap string float :=
  let sku := row_sku row in
  let cogs := row_cogs row in
  if text_truthy sku && negb (isNaN cogs)
  then Put customCOGS (ToString sku) cogs
  else customCOGS.

Definition processRecords (records : list Row) : gmap string float :=
  fold_left processRow records ∅.

(** What the upsert leaves in the settings row: the new table, next to the
    default percentage the row already had (or was created with). *)
Definition uploadCOGS (records : list Row) (pct : option float) : StoreSettings :=
  {| defaultCOGSPercentage := pct; customCOGS := Some (processRecords records) |}.

(** ** Notions the statements below use *)

(** The sum of a list of numbers as a [reduce] or a [+=] loop computes it:
    from 0, left to right. *)
Definition sum (l : list float) : float := fold_left PrimFloat.add l 0%float.

(** [Number.isFinite]: neither [NaN] nor an infinity. *)
Definition Number_isFinite (x : float) : bool :=
  match Prim2SF x with
  | S754_zero _ | S754_finite _ _ _ => true
  | S754_infinity _ | S754_nan => false
  end.

(** The negative zero, [-0]. *)
Definition is_neg_zero (x : spec_float) : bool :=
  match x with
  | S754_zero true => true
  | _ => false
  end.

(** A line item with another [price]. *)
Definition with_price (p : JSText) (item : LineItem) : LineItem :=
  {| sku := sku item; quantity := quantity item; price := p |}.

(** An order with other [line_items]. *)
Definition with_line_items (items : list LineItem) (o : Order) : Order :=
  {| total_price := total_price o; email := email o; line_items := items |}.

(** The branch of [unitCOGS] that reads [price]: no truthy [customCOGS]
    entry for the SKU, and a truthy default percentage. *)
Definition price_is_read (storeSettings : option StoreSettings)
    (item : LineItem) : bool :=
  negb (ToBoolean (customCOGS_of storeSettings (sku item)))
  && ToBoolean (defaultCOGSPercentage_of storeSettings).

(** What the new/returning classification reads and writes. *)
Definition customers (st : Running) : float * float * gset JSText :=
  (run_newCustomerRevenue st, run_returningCustomerRevenue st, customerEmails st).

(** The external read for an account failed. *)
Definition read_failed
    (axios_get : string -> string -> JSText -> JSText -> option (list Insight))
    (startDate endDate : JSText) (account : AdAccount) : bool :=
  match axios_get (accountId account) (accessToken account) startDate endDate with
  | Some _ => false
  | None => true
  end.

(** ** More of the handlers *)

(** The test of [records.forEach]: a row is kept when it names a SKU and
    its COGS parses. *)
Definition row_valid (row : Row) : bool :=
  text_truthy (row_sku row) && negb (isNaN (row_cogs row)).

(** [itemsProcessed] of the upload response:
    [Object.keys(customCOGS).length]. *)
Definition itemsProcessed (records : list Row) : nat :=
  size (processRecords records).

(** The body of [POST /api/settings] as the dashboard sends it: a number for
    [defaultCOGSPercentage], and [customCOGS] when present. *)
Record SettingsBody : Type := {
  body_defaultCOGSPercentage : float;
  body_customCOGS : option (gmap string float)
}.

(** The row [/api/settings] upserts: [update] and [create] write the same
    two fields, [defaultCOGSPercentage] and [customCOGS || {}]. *)
Definition saveSettings (body : SettingsBody) : StoreSettings :=
  {| defaultCOGSPercentage := Some (body_defaultCOGSPercentage body);
     customCOGS := Some (match body_customCOGS body with
                         | Some table => table
                         | None => ∅
                         end) |}.

(** The row [/api/upload-cogs] upserts: [update] writes [customCOGS] only,
    [create] leaves [defaultCOGSPercentage] to the default of the schema. *)
Definition saveUpload (schema_default : option float)
    (stored : option StoreSettings) (records : list Row) : StoreSettings :=
  uploadCOGS records
    (match stored with
     | Some settings => defaultCOGSPercentage settings
     | None => schema_default
     end).

(** The unit COGS of the [else if ... else] branches: the default percentage
    of the price, or 0. *)
Definition default_unitCOGS (pct : option float) (item : LineItem) : JSValue :=
  match pct with
  | Some p =>
      if number_truthy p
      then JSNumber (parseFloat (price item) * (p / 100))%float
      else JSNumber 0%float
  | None => JSNumber 0%float
  end.

(** The emails the loop has put in [customerEmails] after some orders. *)
Definition emails_seen (orders : list Order) : gset JSText :=
  list_to_set (List.filter text_truthy (map email orders)).

(** A world in which every read that fails returns no days instead. *)
Definition failures_as_empty
    (axios_get : string -> string -> JSText -> JSText -> option (list Insight))
    (accountId accessToken : string) (startDate endDate : JSText)
  : option (list Insight) :=
  match axios_get accountId accessToken startDate endDate with
  | Some data => Some data
  | None => Some []
  end.

(** ** Sample inputs *)

(** A CSV row that gives a SKU the unit cost 0, the table the upload makes
    of it, and an order line for that SKU. *)
Definition free_sample_row : Row := {[ "SKU" := "FREE-SAMPLE"; "COGS" := "0" ]}.

Definition free_sample : LineItem :=
  {| sku := Text "FREE-SAMPLE"; quantity := 1; price := Text "10.00" |}.

Definition free_sample_settings : option StoreSettings :=
  Some {| defaultCOGSPercentage := Some 50%float;
          customCOGS := Some {[ "FREE-SAMPLE" := 0%float ]} |}.

(** Two orders of one customer. *)
Definition order_A : Order :=
  {| total_price := Text "30.00"; email := Text "pat@example.com"; line_items := [] |}.

Definition order_B : Order :=
  {| total_price := Text "12.50"; email := Text "pat@example.com"; line_items := [] |}.

(** An order without [total_price], and the same order with the price 0. *)
Definition order_without_price : Order :=
  {| total_price := Undefined; email := Null; line_items := [] |}.

Definition order_with_zero_price : Order :=
  {| total_price := Text "0"; email := Null; line_items := [] |}.

(** Line items of quantity 0, with and without a numeric price, under a
    default percentage of 50. *)
Definition unpriced_item : LineItem :=
  {| sku := Text "MUG"; quantity := 0; price := Text "N/A" |}.

Definition half_price_settings : option StoreSettings :=
  Some {| defaultCOGSPercentage := Some 50%float; customCOGS := Some ∅ |}.

Definition out_of_stock_item : LineItem :=
  {| sku := Text "MUG"; quantity := 0; price := Text "19.99" |}.

(** Three small orders: two of one customer, one of another. *)
Definition order_030 : Order :=
  {| total_price := Text "0.30"; email := Text "ann@example.com"; line_items := [] |}.

Definition order_020 : Order :=
  {| total_price := Text "0.20"; email := Text "ann@example.com"; line_items := [] |}.

Definition order_010 : Order :=
  {| total_price := Text "0.10"; email := Text "bob@example.com"; line_items := [] |}.

(** A run of the ad-spend handler: the first Meta read fails, the second
    returns two days, and there is one Google account. *)
Definition sample_world (accountId accessToken : string) (startDate endDate : JSText)
  : option (list Insight) :=
  if String.eqb accountId "act_2"
  then Some [ {| spend := Text "12.25" |}; {| spend := Text "7.75" |} ]
  else None.

Definition sample_accounts : list AdAccount :=
  [ {| platform := "google"; accountId := "g_1"; accessToken := "t0" |};
    {| platform := "meta"; accountId := "act_1"; accessToken := "t1" |};
    {| platform := "meta"; accountId := "act_2"; accessToken := "t2" |} ].

(** A world in which every read succeeds and lists a day without spend. *)
Definition world_with_bad_day (accountId accessToken : string)
    (startDate endDate : JSText) : option (list Insight) :=
  Some [ {| spend := Text "12.25" |}; {| spend := Null |} ].

(** A CSV record whose header spells the columns another way. *)
Definition row_other_header : Row := {[ "Item" := "TEE-01"; "Cost" := "1.50" ]}.

(** Two CSV rows for one SKU, and an order line for it. *)
Definition row_150 : Row := {[ "SKU" := "TEE-01"; "COGS" := "1.50" ]}.

Definition row_200 : Row := {[ "SKU" := "TEE-01"; "COGS" := "2.00" ]}.

Definition row_bad_cogs : Row := {[ "SKU" := "TEE-01"; "COGS" := "n/a" ]}.

Definition tee : LineItem :=
  {| sku := Text "TEE-01"; quantity := 3; price := Text "20.00" |}.

(** * Properties *)

(** ** Facts of binary64 arithmetic *)

Module FloatFacts.


Abbreviation fexp := (SpecFloat.fexp prec emax).
Abbreviation emin := (SpecFloat.emin prec emax).

Lemma iter_pos_nat {A : Type} (f : A -> A) (p : positive) (x : A) :
  SpecFloat.iter_pos f p x = Nat.iter (Pos.to_nat p) f x.
Proof.
  revert x. induction p as [p IH | p IH |]; intros x; cbn [SpecFloat.iter_pos].
  - rewrite !IH, Pos2Nat.inj_xI.
    replace (S (2 * Pos.to_nat p)) with (Pos.to_nat p + S (Pos.to_nat p))%nat by lia.
    rewrite Nat.iter_add, Nat.iter_succ_r. reflexivity.
  - rewrite !IH, Pos2Nat.inj_xO.
    replace (2 * Pos.to_nat p)%nat with (Pos.to_nat p + Pos.to_nat p)%nat by lia.
    rewrite Nat.iter_add. reflexivity.
  - reflexivity.
Qed.

Lemma shr_1_m (r : shr_record) :
  0 <= shr_m r -> shr_m (shr_1 r) = Z.div2 (shr_m r).
Proof.
  destruct r as [m b s]; simpl. intros Hm.
  destruct m as [| [p | p |] | p]; try reflexivity; lia.
Qed.

Lemma iter_shr_1_m (n : nat) (r : shr_record) :
  0 <= shr_m r ->
  shr_m (Nat.iter n shr_1 r) = Z.shiftr (shr_m r) (Z.of_nat n).
Proof.
  intros Hm. induction n as [| n IH].
  - simpl. rewrite Z.shiftr_0_r. reflexivity.
  - rewrite Nat.iter_succ, shr_1_m, IH.
    + rewrite Z.div2_spec, Z.shiftr_shiftr by lia. f_equal. lia.
    + rewrite IH. apply Z.shiftr_nonneg. exact Hm.
Qed.

Lemma digits2_pos_bound (p : positive) :
  2 ^ (Z.pos (digits2_pos p) - 1) <= Z.pos p.
Proof.
  induction p as [p IH | p IH |]; simpl digits2_pos.
  - rewrite Pos2Z.inj_succ.
    replace (Z.succ (Z.pos (digits2_pos p)) - 1) with (Z.succ (Z.pos (digits2_pos p) - 1)) by lia.
    rewrite Z.pow_succ_r by lia. lia.
  - rewrite Pos2Z.inj_succ.
    replace (Z.succ (Z.pos (digits2_pos p)) - 1) with (Z.succ (Z.pos (digits2_pos p) - 1)) by lia.
    rewrite Z.pow_succ_r by lia. lia.
  - simpl. lia.
Qed.

Lemma shiftr_pos (p : positive) (n : Z) :
  0 <= n < Z.pos (digits2_pos p) -> 0 < Z.shiftr (Z.pos p) n.
Proof.
  intros Hn. rewrite Z.shiftr_div_pow2 by lia.
  apply Z.div_str_pos. split.
  - apply Z.pow_pos_nonneg; lia.
  - etransitivity; [| apply digits2_pos_bound].
    apply Z.pow_le_mono_r; lia.
Qed.

Lemma shr_record_of_loc_m (m : Z) (l : location) :
  shr_m (shr_record_of_loc m l) = m.
Proof. destruct l as [| []]; reflexivity. Qed.

Lemma fexp_ge_emin (e : Z) : emin <= fexp e.
Proof. unfold SpecFloat.fexp. apply Z.le_max_r. Qed.

(** Shifting a positive mantissa to its canonical exponent never shifts
    every bit out when the exponent is at least [emin]. *)
Lemma shr_fexp_pos (mx ex : Z) (lx : location) :
  0 < mx -> emin <= ex ->
  0 < shr_m (fst (shr_fexp prec emax mx ex lx)) /\
  emin <= snd (shr_fexp prec emax mx ex lx).
Proof.
  intros Hm He. unfold shr_fexp, shr.
  destruct mx as [| p | p]; try lia. simpl Zdigits2.
  destruct (fexp (Z.pos (digits2_pos p) + ex) - ex) as [| n | n] eqn:Hn; simpl fst; simpl snd.
  - rewrite shr_record_of_loc_m. lia.
  - rewrite iter_pos_nat, iter_shr_1_m, shr_record_of_loc_m, positive_nat_Z
      by (rewrite shr_record_of_loc_m; lia).
    split; [| lia].
    apply shiftr_pos. split; [lia |].
    unfold SpecFloat.fexp in Hn. pose proof (eq_refl : prec = 53). lia.
  - rewrite shr_record_of_loc_m. lia.
Qed.

Lemma round_nearest_even_pos (m : Z) (l : location) :
  0 < m -> 0 < round_nearest_even m l.
Proof.
  intros Hm. destruct l as [| []]; simpl; try lia.
  destruct (Z.even m); lia.
Qed.

Lemma binary_round_aux_nonzero (sx : bool) (mx ex : Z) (lx : location) :
  0 < mx -> emin <= ex ->
  is_neg_zero (binary_round_aux prec emax sx mx ex lx) = false.
Proof.
  intros Hm He. unfold binary_round_aux.
  destruct (shr_fexp_pos mx ex lx Hm He) as [H1 H2].
  destruct (shr_fexp prec emax mx ex lx) as [mrs' e']. simpl in H1, H2.
  pose proof (round_nearest_even_pos (shr_m mrs') (loc_of_shr_record mrs') H1) as H3.
  destruct (shr_fexp_pos _ e' loc_Exact H3 H2) as [H4 _].
  destruct (shr_fexp prec emax _ e' loc_Exact) as [mrs'' e'']. simpl in H4.
  destruct (shr_m mrs'') as [| m | m]; try lia.
  destruct (e'' <=? emax - prec); reflexivity.
Qed.

Lemma binary_round_nonzero (sx : bool) (mx : positive) (ex : Z) :
  emin <= ex -> is_neg_zero (binary_round prec emax sx mx ex) = false.
Proof.
  intros He. unfold binary_round, shl_align.
  destruct (fexp (Z.pos (digits2_pos mx) + ex) - ex) eqn:Hd;
    apply binary_round_aux_nonzero; try lia.
  apply fexp_ge_emin.
Qed.

Lemma binary_normalize_nonzero (m e : Z) :
  emin <= e -> is_neg_zero (binary_normalize prec emax m e false) = false.
Proof.
  intros He. destruct m; simpl; [reflexivity | |]; now apply binary_round_nonzero.
Qed.

Lemma valid_exponent (s : bool) (m : positive) (e : Z) :
  valid_binary (S754_finite s m e) = true -> emin <= e.
Proof.
  simpl. unfold bounded, canonical_mantissa. intros H.
  apply andb_prop in H. destruct H as [H _].
  apply Z.eqb_eq in H. rewrite <- H. apply fexp_ge_emin.
Qed.

Lemma SFadd_neg_zero (x y : spec_float) :
  valid_binary x = true -> valid_binary y = true ->
  is_neg_zero (SF64add x y) = true ->
  is_neg_zero x = true /\ is_neg_zero y = true.
Proof.
  intros Hx Hy. unfold SF64add, SFadd.
  destruct x as [[] | [] | | sx mx ex], y as [[] | [] | | sy my ey];
    simpl; try (intros; split; congruence).
  apply valid_exponent in Hx, Hy.
  rewrite binary_normalize_nonzero; [congruence | lia].
Qed.

(** A sum is [-0] only when both summands are. *)
Lemma add_neg_zero (x y : float) :
  is_neg_zero (Prim2SF (x + y)) = true ->
  is_neg_zero (Prim2SF x) = true /\ is_neg_zero (Prim2SF y) = true.
Proof.
  rewrite add_spec. apply SFadd_neg_zero; apply Prim2SF_valid.
Qed.

Lemma Prim2SF_nan : Prim2SF nan = S754_nan.
Proof. reflexivity. Qed.

Lemma add_nan_l (x : float) : (nan + x)%float = nan.
Proof.
  apply Prim2SF_inj. rewrite add_spec, Prim2SF_nan. reflexivity.
Qed.

Lemma add_nan_r (x : float) : (x + nan)%float = nan.
Proof.
  apply Prim2SF_inj. rewrite add_spec, Prim2SF_nan.
  destruct (Prim2SF x) as [[] | [] | |]; reflexivity.
Qed.

Lemma sub_nan_l (x : float) : (nan - x)%float = nan.
Proof.
  apply Prim2SF_inj. rewrite sub_spec, Prim2SF_nan. reflexivity.
Qed.

Lemma sub_nan_r (x : float) : (x - nan)%float = nan.
Proof.
  apply Prim2SF_inj. rewrite sub_spec, Prim2SF_nan.
  destruct (Prim2SF x) as [[] | [] | |]; reflexivity.
Qed.

Lemma mul_nan_l (x : float) : (nan * x)%float = nan.
Proof.
  apply Prim2SF_inj. rewrite mul_spec, Prim2SF_nan. reflexivity.
Qed.

Lemma div_nan_l (x : float) : (nan / x)%float = nan.
Proof.
  apply Prim2SF_inj. rewrite div_spec, Prim2SF_nan. reflexivity.
Qed.

Lemma SFcompare_refl (x : spec_float) :
  x <> S754_nan -> SFcompare x x = Some Eq.
Proof.
  destruct x as [s | s | | s m e]; simpl; try congruence.
  - destruct s; reflexivity.
  - intros _. rewrite Z.compare_refl, Pos.compare_cont_refl.
    destruct s; reflexivity.
Qed.

(** [isNaN] holds of [NaN] only. *)
Lemma is_nan_eq (x : float) : PrimFloat.is_nan x = true -> x = nan.
Proof.
  unfold PrimFloat.is_nan. rewrite FloatAxioms.eqb_spec. unfold SFeqb. intros H.
  apply Prim2SF_inj. rewrite Prim2SF_nan.
  destruct (Prim2SF x) as [s | s | | s m e] eqn:E; try reflexivity;
    rewrite SFcompare_refl in H by discriminate; discriminate.
Qed.

(** Adding a zero of either sign leaves a number other than [-0] as it
    is. *)
Lemma add_zero_r (x c : float) (s : bool) :
  is_neg_zero (Prim2SF x) = false -> Prim2SF c = S754_zero s ->
  (x + c)%float = x.
Proof.
  intros Hx Hc. apply Prim2SF_inj. rewrite add_spec, Hc.
  destruct (Prim2SF x) as [[] | [] | |], s; simpl in *; congruence.
Qed.

Lemma Prim2SF_zero : Prim2SF 0%float = S754_zero false.
Proof. reflexivity. Qed.

Lemma add_0_r (x : float) :
  is_neg_zero (Prim2SF x) = false -> (x + 0)%float = x.
Proof. intros Hx. apply (add_zero_r x 0%float false Hx Prim2SF_zero). Qed.

Lemma add_not_neg_zero (x y : float) :
  is_neg_zero (Prim2SF x) = false -> is_neg_zero (Prim2SF (x + y)) = false.
Proof.
  intros Hx. destruct (is_neg_zero (Prim2SF (x + y))) eqn:E; [| reflexivity].
  apply add_neg_zero in E. destruct E as [E _]. congruence.
Qed.

(** A finite number times a zero is a zero. *)
Lemma mul_zero_r (u q : float) (s : bool) :
  Number_isFinite u = true -> Prim2SF q = S754_zero s ->
  exists s', Prim2SF (u * q) = S754_zero s'.
Proof.
  unfold Number_isFinite. intros Hu Hq. rewrite mul_spec, Hq.
  destruct (Prim2SF u) as [su | su | | su mu eu]; try discriminate;
    simpl; eauto.
Qed.

(** *** Sums accumulated from 0 *)

Lemma fold_add_not_neg_zero {A : Type} (f : A -> float) (l : list A) (acc : float) :
  is_neg_zero (Prim2SF acc) = false ->
  is_neg_zero (Prim2SF (fold_left (fun a x => (a + f x)%float) l acc)) = false.
Proof.
  revert acc. induction l as [| x l IH]; intros acc Hacc; simpl.
  - exact Hacc.
  - apply IH. now apply add_not_neg_zero.
Qed.

Lemma fold_add_nan {A : Type} (f : A -> float) (l : list A) :
  fold_left (fun a x => (a + f x)%float) l nan = nan.
Proof.
  induction l as [| x l IH]; simpl; [reflexivity |].
  rewrite add_nan_l. exact IH.
Qed.

(** One [NaN] summand makes the whole sum [NaN]. *)
Lemma fold_add_nan_elem {A : Type} (f : A -> float) (l : list A) (acc : float) (x : A) :
  In x l -> f x = nan ->
  fold_left (fun a x => (a + f x)%float) l acc = nan.
Proof.
  revert acc. induction l as [| y l IH]; intros acc Hin Hx; simpl.
  - destruct Hin.
  - destruct Hin as [-> | Hin].
    + rewrite Hx, add_nan_r. apply fold_add_nan.
    + now apply IH.
Qed.

End FloatFacts.

Import FloatFacts.

(** ** [parseFloat] on sample inputs *)

Example parseFloat_price : parseFloat (Text "1.50") = 1.5%float.
Proof. reflexivity. Qed.

Example parseFloat_tenth : parseFloat (Text "0.10") = 0x1.999999999999ap-4%float.
Proof. reflexivity. Qed.

Example parseFloat_prefix : parseFloat (Text "  -12.5e2 USD") = (-1250)%float.
Proof. reflexivity. Qed.

Example parseFloat_no_exponent_digits : parseFloat (Text "7e+") = 7%float.
Proof. reflexivity. Qed.

Example parseFloat_rounds_to_even :
  parseFloat (Text "9007199254740993") = 9007199254740992%float.
Proof. reflexivity. Qed.

Example parseFloat_overflow : parseFloat (Text "1e400") = infinity.
Proof. reflexivity. Qed.

Example parseFloat_words :
  parseFloat (Text "N/A") = NaN /\ parseFloat (Text "") = NaN
  /\ parseFloat (Text ".") = NaN /\ parseFloat Undefined = NaN
  /\ parseFloat Null = NaN.
Proof. repeat split. Qed.

(** ** The order loop *)

Section OrderLoop.

Variable storeSettings : option StoreSettings.

Lemma processOrders_app (l1 l2 : list Order) (st : Running) :
  processOrders storeSettings (l1 ++ l2) st =
  processOrders storeSettings l2 (processOrders storeSettings l1 st).
Proof. apply fold_left_app. Qed.

Lemma run_totalRevenue_processOrder (st : Running) (o : Order) :
  run_totalRevenue (processOrder storeSettings st o) =
  (run_totalRevenue st + parseFloat (total_price o))%float.
Proof.
  unfold processOrder.
  destruct (text_truthy (email o)); [case_bool_decide |]; reflexivity.
Qed.

Lemma run_totalCOGS_processOrder (st : Running) (o : Order) :
  run_totalCOGS (processOrder storeSettings st o) =
  (run_totalCOGS st + orderCOGS storeSettings (line_items o))%float.
Proof.
  unfold processOrder.
  destruct (text_truthy (email o)); [case_bool_decide |]; reflexivity.
Qed.

(** [totalRevenue] is the running sum of the parsed [total_price]s. *)
Lemma run_totalRevenue_fold (l : list Order) (st : Running) :
  run_totalRevenue (processOrders storeSettings l st) =
  fold_left (fun acc o => (acc + parseFloat (total_price o))%float) l
            (run_totalRevenue st).
Proof.
  unfold processOrders. revert st.
  induction l as [| o l IH]; intros st; simpl; [reflexivity |].
  rewrite IH, run_totalRevenue_processOrder. reflexivity.
Qed.

(** [totalCOGS] is the running sum of the orders' COGS. *)
Lemma run_totalCOGS_fold (l : list Order) (st : Running) :
  run_totalCOGS (processOrders storeSettings l st) =
  fold_left (fun acc o => (acc + orderCOGS storeSettings (line_items o))%float) l
            (run_totalCOGS st).
Proof.
  unfold processOrders. revert st.
  induction l as [| o l IH]; intros st; simpl; [reflexivity |].
  rewrite IH, run_totalCOGS_processOrder. reflexivity.
Qed.

End OrderLoop.

(** A SKU with a truthy own entry in [customCOGS] gets that entry as its
    unit COGS, whatever the default percentage and the price. *)
Lemma unitCOGS_custom (pct : option float) (table : gmap string float)
    (item : LineItem) (c : float) :
  table !! ToString (sku item) = Some c ->
  number_truthy c = true ->
  unitCOGS (Some {| defaultCOGSPercentage := pct; customCOGS := Some table |}) item
  = JSNumber c.
Proof.
  intros Hc Ht. unfold unitCOGS, customCOGS_of, Get. simpl.
  rewrite Hc. simpl. rewrite Ht. reflexivity.
Qed.

(** ** Gross profit *)

(** C1: for every list of orders and every settings object, the returned
    [grossProfit] is the number [totalRevenue - totalCOGS], the difference of
    the two returned fields, exactly. *)
Theorem grossProfit_is_revenue_minus_COGS
    (orders : list Order) (storeSettings : option StoreSettings) :
  let m := calculateDashboardMetrics orders storeSettings in
  grossProfit m = (totalRevenue m - totalCOGS m)%float.
Proof. reflexivity. Qed.

(** ** Custom COGS of zero *)

(** C2: the upload handler accepts the row [SKU=FREE-SAMPLE, COGS=0] and
    stores the unit cost 0, so the SKU is a key of [customCOGS]; with a
    default percentage of 50 the item, priced 10.00, is nevertheless costed
    at 5 a unit, the default percentage of its price, because the test
    [if (customCOGS[sku])] takes the mapped 0 for a missing entry. *)
Theorem zero_custom_COGS_is_ignored :
  Some (uploadCOGS [free_sample_row] (Some 50%float)) = free_sample_settings
  /\ customCOGS_of free_sample_settings (sku free_sample) = JSNumber 0
  /\ unitCOGS free_sample_settings free_sample = JSNumber 5
  /\ totalCOGS
       (calculateDashboardMetrics
          [{| total_price := Text "10.00"; email := Null;
              line_items := [free_sample] |}]
          free_sample_settings) = 5%float.
Proof.
  split; [vm_compute; reflexivity |]. vm_compute. repeat split.
Qed.

(** ** Average order value *)

(** C9: [orderCount] is the length of the order list; for the empty list
    [averageOrderValue] is 0 and nothing is divided; for a non-empty list it
    is [totalRevenue / orderCount]. *)
Theorem averageOrderValue_spec
    (orders : list Order) (storeSettings : option StoreSettings) :
  let m := calculateDashboardMetrics orders storeSettings in
  orderCount m = length orders
  /\ averageOrderValue (calculateDashboardMetrics [] storeSettings) = 0%float
  /\ averageOrderValue m =
       if (orderCount m =? 0)%nat then 0%float
       else (totalRevenue m / Number_of_Z (Z.of_nat (orderCount m)))%float.
Proof.
  repeat split. destruct orders; reflexivity.
Qed.

(** ** New and returning customers *)

(** C6: two orders [A] and [B] carry the same (non-empty) email.  Processed
    as [[A; B]], the revenue of [A] is what [newCustomerRevenue] accumulates
    and the revenue of [B] is what [returningCustomerRevenue] accumulates;
    processed as [[B; A]] the roles are exchanged. *)
Theorem same_email_split_follows_arrival_order
    (A B : Order) (storeSettings : option StoreSettings) :
  email A = email B ->
  text_truthy (email A) = true ->
  let ab := calculateDashboardMetrics [A; B] storeSettings in
  let ba := calculateDashboardMetrics [B; A] storeSettings in
  newCustomerRevenue ab = (0 + parseFloat (total_price A))%float
  /\ returningCustomerRevenue ab = (0 + parseFloat (total_price B))%float
  /\ newCustomerRevenue ba = (0 + parseFloat (total_price B))%float
  /\ returningCustomerRevenue ba = (0 + parseFloat (total_price A))%float.
Proof.
  intros Heq Ht.
  assert (Ht' : text_truthy (email B) = true) by (rewrite <- Heq; exact Ht).
  unfold calculateDashboardMetrics, processOrders. simpl.
  unfold processOrder. simpl. rewrite Ht, Ht'. simpl.
  rewrite !(bool_decide_eq_false_2 (_ ∈ ∅)) by set_solver. simpl.
  rewrite <- Heq.
  rewrite !bool_decide_eq_true_2 by set_solver. simpl.
  repeat split.
Qed.

Lemma same_email_split_witness :
  email order_A = email order_B
  /\ text_truthy (email order_A) = true
  /\ newCustomerRevenue (calculateDashboardMetrics [order_A; order_B] None)
     = (0 + parseFloat (total_price order_A))%float
  /\ returningCustomerRevenue (calculateDashboardMetrics [order_B; order_A] None)
     = (0 + parseFloat (total_price order_A))%float.
Proof.
  split; [reflexivity |]. split; [reflexivity |].
  pose proof (same_email_split_follows_arrival_order order_A order_B None
                eq_refl eq_refl) as H.
  split; apply H.
Defined.

(** ** Prices that are missing or not numeric *)

Lemma itemCOGS_NaN_price (storeSettings : option StoreSettings) (item : LineItem) :
  price_is_read storeSettings item = true ->
  isNaN (parseFloat (price item)) = true ->
  itemCOGS storeSettings item = NaN.
Proof.
  unfold price_is_read, itemCOGS, unitCOGS. intros Hr Hn.
  apply andb_prop in Hr. destruct Hr as [Hc Hd].
  apply negb_true_iff in Hc. rewrite Hc, Hd. simpl.
  apply is_nan_eq in Hn. rewrite Hn, !mul_nan_l. reflexivity.
Qed.

Lemma itemCOGS_price_unread (storeSettings : option StoreSettings)
    (item : LineItem) (p : JSText) :
  price_is_read storeSettings item = false ->
  itemCOGS storeSettings (with_price p item) = itemCOGS storeSettings item.
Proof.
  unfold price_is_read, itemCOGS, unitCOGS. simpl. intros Hr.
  destruct (ToBoolean (customCOGS_of storeSettings (sku item))); [reflexivity |].
  simpl in Hr. rewrite Hr. reflexivity.
Qed.

Lemma orderCOGS_ext (storeSettings : option StoreSettings)
    (f : LineItem -> LineItem) (items : list LineItem) :
  (forall item, itemCOGS storeSettings (f item) = itemCOGS storeSettings item) ->
  orderCOGS storeSettings (map f items) = orderCOGS storeSettings items.
Proof.
  intros Hf. unfold orderCOGS. generalize 0%float.
  induction items as [| item items IH]; intros acc; simpl; [reflexivity |].
  rewrite Hf. apply IH.
Qed.

(** An order enters the loop through its price, its email and the COGS of
    its line items only. *)
Lemma processOrder_ext (storeSettings : option StoreSettings)
    (st : Running) (o o' : Order) :
  total_price o' = total_price o -> email o' = email o ->
  orderCOGS storeSettings (line_items o') = orderCOGS storeSettings (line_items o) ->
  processOrder storeSettings st o' = processOrder storeSettings st o.
Proof.
  intros Hp He Hc. unfold processOrder. rewrite Hp, He, Hc. reflexivity.
Qed.

Lemma processOrders_ext (storeSettings : option StoreSettings)
    (f : Order -> Order) (orders : list Order) (st : Running) :
  (forall st o, processOrder storeSettings st (f o) = processOrder storeSettings st o) ->
  processOrders storeSettings (map f orders) st = processOrders storeSettings orders st.
Proof.
  intros Hf. unfold processOrders. revert st.
  induction orders as [| o orders IH]; intros st; simpl; [reflexivity |].
  rewrite Hf. apply IH.
Qed.

(** C3, as stated, fails: an order without [total_price] gives a
    [totalRevenue] that is [NaN], not the 0 that the same order with
    [total_price] "0" gives. *)
Lemma missing_total_price_is_not_zero :
  totalRevenue (calculateDashboardMetrics [order_without_price] None) = NaN
  /\ totalRevenue (calculateDashboardMetrics [order_with_zero_price] None) = 0%float
  /\ calculateDashboardMetrics [order_without_price] None
     <> calculateDashboardMetrics [order_with_zero_price] None.
Proof.
  split; [reflexivity |]. split; [reflexivity |].
  intros H. apply (f_equal (fun m => PrimFloat.is_nan (totalRevenue m))) in H.
  vm_compute in H. discriminate.
Qed.

(** C3, amended: nothing replaces a missing or non-numeric price by 0.
    (1) When the [total_price] of some order does not parse, [totalRevenue],
    [grossProfit] and [averageOrderValue] are [NaN].  (2) When the [price] of
    some line item does not parse and the item is costed through the default
    percentage, [totalCOGS] and [grossProfit] are [NaN].  (3) The [price] of
    any other line item is not read: replacing it by anything (so also by 0)
    leaves every metric as it is. *)
Theorem unparsable_prices
    (orders : list Order) (storeSettings : option StoreSettings) :
  let m := calculateDashboardMetrics orders storeSettings in
  (forall o, In o orders -> isNaN (parseFloat (total_price o)) = true ->
     totalRevenue m = NaN /\ grossProfit m = NaN /\ averageOrderValue m = NaN)
  /\ (forall o item, In o orders -> In item (line_items o) ->
        isNaN (parseFloat (price item)) = true ->
        price_is_read storeSettings item = true ->
        totalCOGS m = NaN /\ grossProfit m = NaN)
  /\ (forall reprice : LineItem -> JSText,
        calculateDashboardMetrics
          (map (fun o =>
                  with_line_items
                    (map (fun item =>
                            if price_is_read storeSettings item then item
                            else with_price (reprice item) item)
                         (line_items o)) o)
               orders)
          storeSettings = m).
Proof.
  cbv zeta. split; [| split].
  - intros o Hin Hn.
    assert (Hrev : run_totalRevenue (processOrders storeSettings orders start) = nan).
    { rewrite run_totalRevenue_fold.
      apply (fold_add_nan_elem (fun o => parseFloat (total_price o)) orders _ o Hin).
      now apply is_nan_eq. }
    unfold calculateDashboardMetrics. simpl. rewrite Hrev.
    split; [reflexivity |]. split; [apply sub_nan_l |].
    destruct orders as [| o' orders']; [destruct Hin |].
    simpl. apply div_nan_l.
  - intros o item Hin Hitem Hn Hr.
    assert (Hcogs : run_totalCOGS (processOrders storeSettings orders start) = nan).
    { rewrite run_totalCOGS_fold.
      apply (fold_add_nan_elem (fun o => orderCOGS storeSettings (line_items o))
               orders _ o Hin).
      unfold orderCOGS.
      apply (fold_add_nan_elem (itemCOGS storeSettings) _ _ item Hitem).
      now apply itemCOGS_NaN_price. }
    unfold calculateDashboardMetrics. simpl. rewrite Hcogs.
    split; [reflexivity | apply sub_nan_r].
  - intros reprice. unfold calculateDashboardMetrics.
    rewrite length_map, processOrders_ext; [reflexivity |].
    intros st o. apply processOrder_ext; try reflexivity. simpl.
    apply orderCOGS_ext. intros item.
    destruct (price_is_read storeSettings item) eqn:Hr; [reflexivity |].
    now apply itemCOGS_price_unread.
Qed.

Lemma unparsable_prices_witness :
  In order_without_price [order_with_zero_price; order_without_price]
  /\ isNaN (parseFloat (total_price order_without_price)) = true
  /\ totalRevenue
       (calculateDashboardMetrics [order_with_zero_price; order_without_price] None)
     = NaN.
Proof.
  split; [right; left; reflexivity |]. split; [reflexivity |].
  apply (proj1 (unparsable_prices [order_with_zero_price; order_without_price] None)
           order_without_price).
  - right; left; reflexivity.
  - reflexivity.
Defined.

(** ** Line items of quantity 0 *)

(** C8, as stated, fails: with a default percentage of 50, an item of
    quantity 0 whose price does not parse adds [NaN], not 0, and [totalCOGS]
    is [NaN]. *)
Lemma zero_quantity_with_unparsable_price :
  quantity unpriced_item = 0%float
  /\ itemCOGS half_price_settings unpriced_item = NaN
  /\ totalCOGS
       (calculateDashboardMetrics
          [{| total_price := Text "0.00"; email := Null;
              line_items := [unpriced_item] |}]
          half_price_settings) = NaN.
Proof. vm_compute. repeat split. Qed.

Lemma is_zero_of_Prim2SF (x : float) (s : bool) :
  Prim2SF x = S754_zero s -> PrimFloat.is_zero x = true.
Proof.
  intros H. unfold PrimFloat.is_zero. rewrite FloatAxioms.eqb_spec, H.
  reflexivity.
Qed.

(** C8, amended: a line item of quantity 0 whose unit COGS is a finite
    number adds a zero to the order's COGS, whatever its price: the order's
    COGS, and with it every metric, is what it is without the item. *)
Theorem zero_quantity_adds_no_COGS
    (storeSettings : option StoreSettings)
    (before after : list LineItem) (item : LineItem) :
  quantity item = 0%float ->
  Number_isFinite (ToNumber (unitCOGS storeSettings item)) = true ->
  PrimFloat.is_zero (itemCOGS storeSettings item) = true
  /\ orderCOGS storeSettings (before ++ item :: after)
     = orderCOGS storeSettings (before ++ after)
  /\ forall (o : Order) (earlier later : list Order),
       line_items o = before ++ item :: after ->
       calculateDashboardMetrics (earlier ++ o :: later) storeSettings
       = calculateDashboardMetrics
           (earlier ++ with_line_items (before ++ after) o :: later) storeSettings.
Proof.
  intros Hq Hfin.
  destruct (mul_zero_r (ToNumber (unitCOGS storeSettings item)) (quantity item) false Hfin)
    as [s' Hz]; [rewrite Hq; reflexivity |].
  fold (itemCOGS storeSettings item) in Hz.
  assert (Hcogs : orderCOGS storeSettings (before ++ item :: after)
                  = orderCOGS storeSettings (before ++ after)).
  { unfold orderCOGS. rewrite !fold_left_app. simpl.
    rewrite (add_zero_r _ _ s'); [reflexivity | | exact Hz].
    apply fold_add_not_neg_zero. reflexivity. }
  split; [exact (is_zero_of_Prim2SF _ _ Hz) |]. split; [exact Hcogs |].
  intros o earlier later Ho.
  unfold calculateDashboardMetrics.
  rewrite !length_app, !processOrders_app. simpl.
  rewrite (processOrder_ext storeSettings _ o (with_line_items (before ++ after) o));
    [reflexivity | reflexivity | reflexivity |].
  simpl. rewrite Ho. symmetry. exact Hcogs.
Qed.

Lemma zero_quantity_witness :
  quantity out_of_stock_item = 0%float
  /\ Number_isFinite (ToNumber (unitCOGS half_price_settings out_of_stock_item)) = true
  /\ PrimFloat.is_zero (itemCOGS half_price_settings out_of_stock_item) = true.
Proof.
  split; [reflexivity |]. split; [reflexivity |].
  apply (zero_quantity_adds_no_COGS half_price_settings [] [] out_of_stock_item);
    reflexivity.
Defined.

(** ** Customer buckets and total revenue *)

Lemma processOrder_customers (storeSettings : option StoreSettings)
    (st1 st2 : Running) (o : Order) :
  customers st1 = customers st2 ->
  customers (processOrder storeSettings st1 o)
  = customers (processOrder storeSettings st2 o).
Proof.
  unfold customers. intros H. injection H as Hn Hr He.
  unfold processOrder. rewrite He.
  destruct (text_truthy (email o)); [case_bool_decide |]; simpl; congruence.
Qed.

Lemma processOrders_customers (storeSettings : option StoreSettings)
    (l : list Order) (st1 st2 : Running) :
  customers st1 = customers st2 ->
  customers (processOrders storeSettings l st1)
  = customers (processOrders storeSettings l st2).
Proof.
  unfold processOrders. revert st1 st2.
  induction l as [| o l IH]; intros st1 st2 H; simpl; [exact H |].
  apply IH. now apply processOrder_customers.
Qed.

Lemma processOrder_no_email (storeSettings : option StoreSettings)
    (st : Running) (o : Order) :
  text_truthy (email o) = false ->
  customers (processOrder storeSettings st o) = customers st.
Proof. unfold processOrder. intros ->. reflexivity. Qed.

(** C4, as stated, fails: three orders of 0.30, 0.20 (same customer) and
    0.10 (another customer) give [newCustomerRevenue = 0.30 + 0.10],
    [returningCustomerRevenue = 0.20] and [totalRevenue = 0.30 + 0.20 + 0.10];
    in binary64 the first two add up to more than the third. *)
Lemma buckets_can_exceed_total_revenue :
  let m := calculateDashboardMetrics [order_030; order_020; order_010] None in
  newCustomerRevenue m = (parseFloat (Text "0.30") + parseFloat (Text "0.10"))%float
  /\ returningCustomerRevenue m = parseFloat (Text "0.20")
  /\ totalRevenue m
     = (parseFloat (Text "0.30") + parseFloat (Text "0.20") + parseFloat (Text "0.10"))%float
  /\ (newCustomerRevenue m + returningCustomerRevenue m <=? totalRevenue m)%float = false
  /\ (totalRevenue m <? newCustomerRevenue m + returningCustomerRevenue m)%float = true.
Proof. vm_compute. repeat split. Qed.

(** C4, amended: every order adds its revenue to [totalRevenue]; an order
    with an email adds it to exactly one of [newCustomerRevenue] and
    [returningCustomerRevenue]; an order without an email (absent, [null] or
    empty) contributes to neither: both are what they are without that
    order. *)
Theorem customer_buckets
    (storeSettings : option StoreSettings)
    (earlier later : list Order) (o : Order) :
  let r := parseFloat (total_price o) in
  let m := calculateDashboardMetrics earlier storeSettings in
  let m' := calculateDashboardMetrics (earlier ++ [o]) storeSettings in
  totalRevenue m' = (totalRevenue m + r)%float
  /\ (text_truthy (email o) = true ->
      (newCustomerRevenue m' = (newCustomerRevenue m + r)%float
       /\ returningCustomerRevenue m' = returningCustomerRevenue m)
      \/ (newCustomerRevenue m' = newCustomerRevenue m
          /\ returningCustomerRevenue m' = (returningCustomerRevenue m + r)%float))
  /\ (text_truthy (email o) = false ->
      newCustomerRevenue (calculateDashboardMetrics (earlier ++ o :: later) storeSettings)
      = newCustomerRevenue (calculateDashboardMetrics (earlier ++ later) storeSettings)
      /\ returningCustomerRevenue
           (calculateDashboardMetrics (earlier ++ o :: later) storeSettings)
         = returningCustomerRevenue
             (calculateDashboardMetrics (earlier ++ later) storeSettings)).
Proof.
  cbv zeta. unfold calculateDashboardMetrics. simpl.
  rewrite !processOrders_app. simpl.
  split; [apply run_totalRevenue_processOrder |]. split.
  - intros Ht. unfold processOrder. rewrite Ht.
    case_bool_decide; simpl; [right | left]; split; reflexivity.
  - intros Ht.
    pose proof (processOrders_customers storeSettings later _ _
                  (processOrder_no_email storeSettings
                     (processOrders storeSettings earlier start) o Ht)) as H.
    unfold customers in H. injection H as Hn Hr _. split; assumption.
Qed.

Lemma customer_buckets_witness :
  text_truthy (email order_without_price) = false
  /\ newCustomerRevenue
       (calculateDashboardMetrics [order_030; order_without_price; order_020] None)
     = newCustomerRevenue (calculateDashboardMetrics [order_030; order_020] None).
Proof.
  split; [reflexivity |].
  apply (customer_buckets None [order_030] [order_020] order_without_price).
  reflexivity.
Defined.

(** ** Ad spend *)

Section AdSpendFacts.

Variable axios_get : string -> string -> JSText -> JSText -> option (list Insight).
Variables startDate endDate : JSText.

(** The two [for] loops, read off as a sum and a list of entries. *)
Lemma fold_record_spend (label : string) (g : AdAccount -> AdSpend)
    (l : list AdAccount) (t : float) (b : list BreakdownEntry) :
  fold_left (fun acc account => record_spend label (g account) acc) l (t, b)
  = (fold_left (fun x account => (x + total (g account))%float) l t,
     b ++ map (fun account => entry label (g account)) l).
Proof.
  revert t b. induction l as [| a l IH]; intros t b; simpl.
  - rewrite app_nil_r. reflexivity.
  - unfold record_spend at 2. simpl. rewrite IH, <- app_assoc. reflexivity.
Qed.

Lemma fold_add_map {A : Type} (f : A -> float) (l : list A) (acc : float) :
  fold_left PrimFloat.add (map f l) acc
  = fold_left (fun x a => (x + f a)%float) l acc.
Proof.
  revert acc. induction l as [| a l IH]; intros acc; simpl; [reflexivity |].
  apply IH.
Qed.

(** Summands that are 0 can be left out of a sum accumulated from a number
    other than [-0]. *)
Lemma fold_add_filter {A : Type} (f : A -> float) (keep : A -> bool)
    (l : list A) (acc : float) :
  is_neg_zero (Prim2SF acc) = false ->
  (forall a, keep a = false -> f a = 0%float) ->
  fold_left (fun x a => (x + f a)%float) (List.filter keep l) acc
  = fold_left (fun x a => (x + f a)%float) l acc.
Proof.
  intros Hacc Hz. revert acc Hacc.
  induction l as [| a l IH]; intros acc Hacc; simpl; [reflexivity |].
  destruct (keep a) eqn:Hk; simpl.
  - apply IH. now apply add_not_neg_zero.
  - rewrite (Hz a Hk), add_0_r by exact Hacc. now apply IH.
Qed.

Lemma fold_add_zeros {A : Type} (l : list A) (acc : float) :
  is_neg_zero (Prim2SF acc) = false ->
  fold_left (fun x (_ : A) => (x + 0)%float) l acc = acc.
Proof.
  intros Hacc. induction l as [| a l IH]; simpl; [reflexivity |].
  rewrite add_0_r by exact Hacc. exact IH.
Qed.

Lemma meta_without_google (l : list AdAccount) :
  filter (fun a => platform a = "meta") (filter (fun a => platform a <> "google") l)
  = filter (fun a => platform a = "meta") l.
Proof.
  induction l as [| a l IH]; [reflexivity |].
  rewrite !filter_cons.
  destruct (decide (platform a <> "google")) as [Hg | Hg].
  - rewrite filter_cons, IH. reflexivity.
  - rewrite IH. destruct (decide (platform a = "meta")) as [Hm | Hm]; [| reflexivity].
    exfalso. apply Hg. rewrite Hm. discriminate.
Qed.

Lemma google_without_google (l : list AdAccount) :
  filter (fun a => platform a = "google") (filter (fun a => platform a <> "google") l)
  = [].
Proof.
  induction l as [| a l IH]; [reflexivity |].
  rewrite filter_cons.
  destruct (decide (platform a <> "google")) as [Hg | Hg]; [| exact IH].
  rewrite filter_cons, IH.
  destruct (decide (platform a = "google")); [contradiction | reflexivity].
Qed.

End AdSpendFacts.

(** C5: a Meta read that fails yields [{total: 0, daily: []}] for that call;
    every entry of [breakdown] is computed from the read of its own account
    only, so it is the same under any other outcome of the other reads; and
    [totalAdSpend] is the sum of the totals of the calls that did not fail
    (the Meta reads that succeeded, and the Google calls, which cannot
    fail). *)
Theorem ad_spend_failures_are_isolated
    (axios_get : string -> string -> JSText -> JSText -> option (list Insight))
    (adAccounts : list AdAccount) (startDate endDate : JSText) :
  let meta := filter (fun a => platform a = "meta") adAccounts in
  let google := filter (fun a => platform a = "google") adAccounts in
  let fetchMeta world a :=
    fetchMetaAdSpend world (accountId a) (accessToken a) startDate endDate in
  let fetchGoogle a :=
    fetchGoogleAdSpend (accountId a) (accessToken a) startDate endDate in
  let result := adSpend axios_get adAccounts startDate endDate in
  (forall a, read_failed axios_get startDate endDate a = true ->
     fetchMeta axios_get a = {| total := 0; daily := [] |})
  /\ breakdown result
     = map (fun a => entry "Meta" (fetchMeta axios_get a)) meta
       ++ map (fun a => entry "Google" (fetchGoogle a)) google
  /\ (forall world a,
        world (accountId a) (accessToken a) startDate endDate
        = axios_get (accountId a) (accessToken a) startDate endDate ->
        fetchMeta world a = fetchMeta axios_get a)
  /\ totalAdSpend result
     = sum (map (fun a => total (fetchMeta axios_get a))
                (List.filter (fun a => negb (read_failed axios_get startDate endDate a))
                             meta)
            ++ map (fun a => total (fetchGoogle a)) google).
Proof.
  cbv zeta. split; [| split; [| split]].
  - intros a Hf. unfold read_failed in Hf. unfold fetchMetaAdSpend.
    destruct (axios_get _ _ _ _); [discriminate | reflexivity].
  - unfold adSpend. simpl. rewrite !fold_record_spend. reflexivity.
  - intros world a Hw. unfold fetchMetaAdSpend. rewrite Hw. reflexivity.
  - unfold adSpend, sum. simpl. rewrite !fold_record_spend. simpl.
    rewrite fold_left_app, !fold_add_map. f_equal.
    rewrite fold_add_filter; [reflexivity | reflexivity |].
    intros a Hf. apply negb_false_iff in Hf.
    unfold read_failed in Hf. unfold fetchMetaAdSpend.
    destruct (axios_get _ _ _ _); [discriminate | reflexivity].
Qed.

(** C10: [fetchGoogleAdSpend] returns [{total: 0, daily: []}] whatever its
    arguments; every Google entry of [breakdown] has total 0; and
    [totalAdSpend] is what it is when the Google accounts are left out. *)
Theorem google_ad_spend_is_zero
    (axios_get : string -> string -> JSText -> JSText -> option (list Insight))
    (adAccounts : list AdAccount) (startDate endDate : JSText) :
  (forall accountId accessToken startDate endDate,
     fetchGoogleAdSpend accountId accessToken startDate endDate
     = {| total := 0; daily := [] |})
  /\ (forall e, In e (breakdown (adSpend axios_get adAccounts startDate endDate)) ->
        entry_platform e = "Google" -> entry_total e = 0%float)
  /\ totalAdSpend (adSpend axios_get adAccounts startDate endDate)
     = totalAdSpend
         (adSpend axios_get (filter (fun a => platform a <> "google") adAccounts)
                  startDate endDate).
Proof.
  split; [reflexivity |]. split.
  - intros e. unfold adSpend. simpl. rewrite !fold_record_spend. simpl.
    rewrite in_app_iff, !in_map_iff.
    intros [[a [<- _]] | [a [<- _]]]; [discriminate | reflexivity].
  - unfold adSpend. simpl. rewrite !fold_record_spend. simpl.
    rewrite meta_without_google, google_without_google. simpl.
    apply fold_add_zeros, fold_add_not_neg_zero. reflexivity.
Qed.

(** The sample run: the failed Meta read shows as a zero entry, and the
    total is that of the read that succeeded. *)
Example ad_spend_sample :
  adSpend sample_world sample_accounts (Text "2024-01-01") (Text "2024-01-31")
  = {| totalAdSpend := 20;
       breakdown :=
         [ {| entry_platform := "Meta"; entry_total := 0; entry_daily := [] |};
           {| entry_platform := "Meta"; entry_total := 20;
              entry_daily := [ {| spend := Text "12.25" |}; {| spend := Text "7.75" |} ] |};
           {| entry_platform := "Google"; entry_total := 0; entry_daily := [] |} ] |}.
Proof. vm_compute. reflexivity. Qed.

(** ** Uploading COGS and using them *)

Lemma processRow_other (table : gmap string float) (row : Row) (X : string) :
  row_sku row <> Text X ->
  processRow table row !! X = table !! X.
Proof.
  intros Hne. unfold processRow, Put.
  destruct (text_truthy (row_sku row)) eqn:Ht; simpl; [| reflexivity].
  destruct (negb (isNaN (row_cogs row))); [| reflexivity].
  case_bool_decide; [reflexivity |].
  apply lookup_insert_ne.
  destruct (row_sku row) as [| | k]; try discriminate.
  simpl. congruence.
Qed.

Lemma processRows_other (rows : list Row) (table : gmap string float) (X : string) :
  (forall r, In r rows -> row_sku r <> Text X) ->
  fold_left processRow rows table !! X = table !! X.
Proof.
  revert table. induction rows as [| r rows IH]; intros table Hne; simpl.
  - reflexivity.
  - rewrite IH by (intros r' Hr'; apply Hne; now right).
    apply processRow_other, Hne. now left.
Qed.

(** C7, as stated, fails: the rows of the CSV include [SKU=TEE-01,
    COGS=1.50], but a later row gives the same SKU the COGS 2.00; the table
    maps the SKU to 2 and the order is costed at 2 a unit. *)
Lemma later_row_overrides :
  In row_150 [row_150; row_200]
  /\ processRecords [row_150; row_200] !! "TEE-01" = Some 2%float
  /\ unitCOGS (Some (uploadCOGS [row_150; row_200] None)) tee = JSNumber 2.
Proof. split; [now left |]. vm_compute. split; reflexivity. Qed.

(** C7, amended: when the last row of the CSV for the SKU [X] (a non-empty
    name other than [__proto__]) is [SKU=X, COGS=1.50], the uploaded table
    maps [X] to 1.5, and with the uploaded settings a line item with SKU [X]
    has unit COGS exactly 1.5, whatever the default percentage and the item's
    price; the item adds [1.5 * quantity]. *)
Theorem uploaded_COGS_round_trip
    (before after : list Row) (row : Row) (X : string)
    (pct : option float) (item : LineItem) :
  row !! "SKU" = Some X ->
  row !! "COGS" = Some "1.50" ->
  X <> "" -> X <> "__proto__" ->
  (forall r, In r after -> row_sku r <> Text X) ->
  sku item = Text X ->
  let settings := uploadCOGS (before ++ row :: after) pct in
  processRecords (before ++ row :: after) !! X = Some 1.5%float
  /\ unitCOGS (Some settings) item = JSNumber 1.5
  /\ itemCOGS (Some settings) item = (1.5 * quantity item)%float.
Proof.
  intros Hsku Hcogs Hne Hproto Hlater Hitem. cbv zeta.
  assert (Htable : processRecords (before ++ row :: after) !! X = Some 1.5%float).
  { unfold processRecords. rewrite fold_left_app. simpl.
    rewrite processRows_other by exact Hlater.
    unfold processRow, row_sku, row_cogs, cell. rewrite Hsku, Hcogs.
    destruct X as [| c X']; [congruence |]. simpl.
    unfold Put. rewrite bool_decide_eq_false_2 by exact Hproto.
    apply lookup_insert_eq. }
  assert (Hunit : unitCOGS (Some (uploadCOGS (before ++ row :: after) pct)) item
                  = JSNumber 1.5).
  { apply unitCOGS_custom; [| reflexivity].
    rewrite Hitem. exact Htable. }
  split; [exact Htable |]. split; [exact Hunit |].
  unfold itemCOGS. rewrite Hunit. reflexivity.
Qed.

Lemma uploaded_COGS_witness :
  row_150 !! "SKU" = Some "TEE-01"
  /\ row_150 !! "COGS" = Some "1.50"
  /\ unitCOGS (Some (uploadCOGS [row_200; row_150] (Some 50%float))) tee = JSNumber 1.5.
Proof.
  split; [reflexivity |]. split; [reflexivity |].
  apply (uploaded_COGS_round_trip [row_200] [] row_150 "TEE-01" (Some 50%float) tee);
    try reflexivity; try discriminate.
  intros r [].
Defined.

(** * Further properties of the handlers *)

(** ** The uploaded table *)

Lemma processRecords_snoc (records : list Row) (row : Row) :
  processRecords (records ++ [row]) = processRow (processRecords records) row.
Proof. unfold processRecords. rewrite fold_left_app. reflexivity. Qed.

Lemma processRow_invalid (table : gmap string float) (row : Row) :
  row_valid row = false -> processRow table row = table.
Proof. unfold processRow, row_valid. intros ->. reflexivity. Qed.

Lemma processRow_valid (table : gmap string float) (row : Row) :
  row_valid row = true ->
  processRow table row = Put table (ToString (row_sku row)) (row_cogs row).
Proof. unfold processRow, row_valid. intros ->. reflexivity. Qed.

Lemma truthy_text (v : JSText) :
  text_truthy v = true -> v = Text (ToString v) /\ ToString v <> "".
Proof.
  destruct v as [| | [| c s]]; try discriminate. intros _. split; [reflexivity | discriminate].
Qed.

(** The table never holds [NaN]. *)
Lemma processRecords_not_NaN (records : list Row) (k : string) (v : float) :
  processRecords records !! k = Some v -> isNaN v = false.
Proof.
  revert v. induction records as [| row records IH] using rev_ind; intros v.
  - unfold processRecords. simpl. rewrite lookup_empty. discriminate.
  - rewrite processRecords_snoc. unfold processRow, Put.
    destruct (text_truthy (row_sku row)); simpl; [| apply IH].
    destruct (isNaN (row_cogs row)) eqn:Hn; simpl; [apply IH |].
    case_bool_decide; [apply IH |].
    destruct (decide (ToString (row_sku row) = k)) as [<- | Hne].
    + rewrite lookup_insert_eq. intros [= <-]. exact Hn.
    + rewrite lookup_insert_ne by exact Hne. apply IH.
Qed.

(** X1: every entry of the uploaded table comes from a row of the CSV that
    names its SKU and has a COGS that parses: the key is not empty and not
    [__proto__], the value is not [NaN] and is the parsed COGS of such a
    row. *)
Theorem uploaded_entries_come_from_valid_rows
    (records : list Row) (k : string) (v : float) :
  processRecords records !! k = Some v ->
  k <> "" /\ k <> "__proto__" /\ isNaN v = false
  /\ exists row, In row records /\ row_valid row = true
                 /\ row_sku row = Text k /\ row_cogs row = v.
Proof.
  revert v. induction records as [| row records IH] using rev_ind; intros v.
  - unfold processRecords. simpl. rewrite lookup_empty. discriminate.
  - rewrite processRecords_snoc.
    assert (Hold : processRecords records !! k = Some v ->
                   k <> "" /\ k <> "__proto__" /\ isNaN v = false
                   /\ exists row', In row' (records ++ [row]) /\ row_valid row' = true
                                   /\ row_sku row' = Text k /\ row_cogs row' = v).
    { intros H. destruct (IH v H) as (H1 & H2 & H3 & r & Hin & Hr).
      repeat split; try assumption. exists r. split; [| exact Hr].
      apply in_or_app. now left. }
    destruct (row_valid row) eqn:Hv.
    + rewrite processRow_valid by exact Hv. unfold Put.
      case_bool_decide as Hp; [exact Hold |].
      destruct (decide (ToString (row_sku row) = k)) as [<- | Hne].
      * rewrite lookup_insert_eq. intros [= <-].
        unfold row_valid in Hv. apply andb_prop in Hv. destruct Hv as [Ht Hn].
        destruct (truthy_text _ Ht) as [Hs Hne].
        repeat split; [exact Hne | exact Hp | now apply negb_true_iff |].
        exists row. repeat split.
        -- apply in_or_app. right. now left.
        -- unfold row_valid. rewrite Ht, Hn. reflexivity.
        -- exact Hs.
      * rewrite lookup_insert_ne by exact Hne. exact Hold.
    + rewrite processRow_invalid by exact Hv. exact Hold.
Qed.


Lemma uploaded_entries_witness :
  processRecords [row_150; row_200] !! "TEE-01" = Some 2%float
  /\ isNaN 2%float = false.
Proof.
  split; [vm_compute; reflexivity |].
  apply (uploaded_entries_come_from_valid_rows [row_150; row_200] "TEE-01" 2%float).
  vm_compute. reflexivity.
Defined.

Lemma fold_processRow_valid (records : list Row) (table : gmap string float) :
  fold_left processRow records table
  = fold_left processRow (List.filter row_valid records) table.
Proof.
  revert table.
  induction records as [| row records IH]; intros table; simpl; [reflexivity |].
  destruct (row_valid row) eqn:Hv; simpl.
  - apply IH.
  - rewrite processRow_invalid by exact Hv. apply IH.
Qed.

Lemma processRecords_valid (records : list Row) :
  processRecords records = processRecords (List.filter row_valid records).
Proof. apply fold_processRow_valid. Qed.

(** X2: rows that name no SKU, or whose COGS does not parse, are skipped:
    the table is the one the remaining rows give. *)
Theorem malformed_rows_are_skipped (records : list Row) :
  processRecords records = processRecords (List.filter row_valid records).
Proof.
  unfold processRecords. generalize (∅ : gmap string float).
  induction records as [| row records IH]; intros table; simpl; [reflexivity |].
  destruct (row_valid row) eqn:Hv; simpl.
  - apply IH.
  - rewrite processRow_invalid by exact Hv. apply IH.
Qed.

(** X3: the last row that is kept for a SKU decides its cost: when [row]
    names the SKU [X] (other than [__proto__]), its COGS parses, and no
    later row that is kept names [X], the table maps [X] to the parsed COGS
    of [row]. *)
Theorem last_valid_row_wins
    (before after : list Row) (row : Row) (X : string) :
  row_valid row = true ->
  row_sku row = Text X ->
  X <> "__proto__" ->
  (forall r, In r after -> row_valid r = true -> row_sku r <> Text X) ->
  processRecords (before ++ row :: after) !! X = Some (row_cogs row).
Proof.
  intros Hv Hsku Hp Hlater.
  rewrite processRecords_valid, List.filter_app. simpl. rewrite Hv.
  unfold processRecords. rewrite fold_left_app. simpl.
  rewrite processRows_other.
  - rewrite processRow_valid by exact Hv. rewrite Hsku. simpl.
    unfold Put. rewrite bool_decide_eq_false_2 by exact Hp.
    apply lookup_insert_eq.
  - intros r Hr. apply List.filter_In in Hr. destruct Hr as [Hin Hrv].
    now apply Hlater.
Qed.

Lemma last_valid_row_witness :
  row_valid row_150 = true
  /\ row_valid row_bad_cogs = false
  /\ processRecords [row_200; row_150; row_bad_cogs] !! "TEE-01" = Some 1.5%float.
Proof.
  split; [reflexivity |]. split; [reflexivity |].
  apply (last_valid_row_wins [row_200] [row_bad_cogs] row_150 "TEE-01");
    try reflexivity; try discriminate.
  intros r [<- | []]. discriminate.
Defined.

Lemma size_processRow (table : gmap string float) (row : Row) :
  (size (processRow table row) <= (if row_valid row then 1 else 0) + size table)%nat.
Proof.
  destruct (row_valid row) eqn:Hv.
  - rewrite processRow_valid by exact Hv. unfold Put.
    case_bool_decide; [lia |].
    rewrite map_size_insert. destruct (table !! _); simpl; lia.
  - rewrite processRow_invalid by exact Hv. lia.
Qed.

(** X4: [itemsProcessed] counts the SKUs of the table, not the rows of the
    file: it is at most the number of rows that are kept, which is at most
    the number of rows. *)
Theorem itemsProcessed_bound (records : list Row) :
  (itemsProcessed records <= length (List.filter row_valid records))%nat
  /\ (length (List.filter row_valid records) <= length records)%nat.
Proof.
  split.
  - unfold itemsProcessed.
    induction records as [| row records IH] using rev_ind.
    + unfold processRecords. simpl. rewrite map_size_empty. lia.
    + rewrite processRecords_snoc, List.filter_app, length_app.
      pose proof (size_processRow (processRecords records) row) as H.
      simpl. destruct (row_valid row); simpl in *; lia.
  - apply List.filter_length_le.
Qed.

(** X5: with uploaded settings, a line item whose SKU has an uploaded cost
    other than 0 is costed at exactly that cost a unit, whatever the default
    percentage and the price; a SKU whose uploaded cost is 0 is costed by the
    default rule, as if it had no entry. *)
Theorem uploaded_cost_is_used
    (records : list Row) (pct : option float) (item : LineItem) (c : float) :
  processRecords records !! ToString (sku item) = Some c ->
  unitCOGS (Some (uploadCOGS records pct)) item
  = if PrimFloat.is_zero c then default_unitCOGS pct item else JSNumber c.
Proof.
  intros Hc.
  pose proof (processRecords_not_NaN _ _ _ Hc) as Hn.
  unfold isNaN in Hn.
  assert (Ht : number_truthy c = negb (PrimFloat.is_zero c)).
  { unfold number_truthy. rewrite Hn, orb_false_r. reflexivity. }
  unfold unitCOGS, customCOGS_of, Get. simpl. rewrite Hc. simpl. rewrite Ht.
  destruct (PrimFloat.is_zero c); simpl; [| reflexivity].
  unfold default_unitCOGS. destruct pct as [p |]; simpl; [| reflexivity].
  destruct (number_truthy p); reflexivity.
Qed.

Lemma uploaded_cost_witness :
  processRecords [row_150] !! ToString (sku tee) = Some 1.5%float
  /\ unitCOGS (Some (uploadCOGS [row_150] (Some 50%float))) tee = JSNumber 1.5.
Proof.
  split; [vm_compute; reflexivity |].
  apply (uploaded_cost_is_used [row_150] (Some 50%float) tee 1.5%float).
  vm_compute. reflexivity.
Defined.

(** ** Saving settings and uploading COGS, one after the other *)

Lemma unitCOGS_no_entry (pct : option float) (table : gmap string float)
    (item : LineItem) :
  table !! ToString (sku item) = None ->
  ~ In (ToString (sku item)) Object_prototype ->
  unitCOGS (Some {| defaultCOGSPercentage := pct; customCOGS := Some table |}) item
  = default_unitCOGS pct item.
Proof.
  intros Hnone Hproto. unfold unitCOGS, customCOGS_of, Get, default_unitCOGS.
  simpl. rewrite Hnone.
  rewrite bool_decide_eq_false_2 by (rewrite list_elem_of_In; exact Hproto).
  simpl. destruct pct as [p |]; simpl; [| reflexivity].
  destruct (number_truthy p); reflexivity.
Qed.

(** X6: a settings save whose body carries no [customCOGS] stores the empty
    table: whatever was uploaded before, every line item (whose SKU is not
    the name of a member of [Object.prototype]) is then costed by the
    default rule with the saved percentage.  An upload after a save keeps
    the saved percentage and replaces the table. *)
Theorem save_then_upload_and_upload_then_save
    (body : SettingsBody) (schema_default : option float)
    (stored : option StoreSettings) (records : list Row) :
  body_customCOGS body = None ->
  let uploaded := saveUpload schema_default stored records in
  let saved := saveSettings body in
  customCOGS saved = Some ∅
  /\ (forall item, ~ In (ToString (sku item)) Object_prototype ->
        unitCOGS (Some saved) item
        = default_unitCOGS (Some (body_defaultCOGSPercentage body)) item)
  /\ customCOGS uploaded = Some (processRecords records)
  /\ saveUpload schema_default (Some saved) records
     = {| defaultCOGSPercentage := Some (body_defaultCOGSPercentage body);
          customCOGS := Some (processRecords records) |}.
Proof.
  intros Hb. cbv zeta. unfold saveSettings. rewrite Hb.
  split; [reflexivity |]. split; [| split; reflexivity].
  intros item Hproto. apply unitCOGS_no_entry; [apply lookup_empty | exact Hproto].
Qed.

Lemma save_after_upload_witness :
  body_customCOGS {| body_defaultCOGSPercentage := 30; body_customCOGS := None |} = None
  /\ unitCOGS (Some (uploadCOGS [row_150] (Some 30%float))) tee = JSNumber 1.5
  /\ unitCOGS
       (Some (saveSettings {| body_defaultCOGSPercentage := 30; body_customCOGS := None |}))
       tee
     = default_unitCOGS (Some 30%float) tee.
Proof.
  split; [reflexivity |]. split; [vm_compute; reflexivity |].
  apply (save_then_upload_and_upload_then_save
           {| body_defaultCOGSPercentage := 30; body_customCOGS := None |}
           None None [row_150] eq_refl).
  vm_compute. intuition discriminate.
Defined.

(** ** First and later orders of a customer *)

Lemma emails_seen_cons (o : Order) (l : list Order) :
  emails_seen (o :: l)
  = if text_truthy (email o) then {[ email o ]} ∪ emails_seen l else emails_seen l.
Proof.
  unfold emails_seen. simpl. destruct (text_truthy (email o)); reflexivity.
Qed.

(** [customerEmails] holds the non-empty emails of the orders processed. *)
Lemma customerEmails_processOrders (storeSettings : option StoreSettings)
    (l : list Order) (st : Running) :
  customerEmails (processOrders storeSettings l st)
  = emails_seen l ∪ customerEmails st.
Proof.
  unfold processOrders. revert st.
  induction l as [| o l IH]; intros st; simpl.
  - unfold emails_seen. simpl. rewrite (left_id_L ∅ (∪)). reflexivity.
  - rewrite IH, emails_seen_cons. unfold processOrder.
    destruct (text_truthy (email o)); [case_bool_decide as Hin |]; simpl.
    + apply set_eq. intros x. rewrite !elem_of_union, elem_of_singleton.
      split; [tauto |]. intros [[-> | Hx] | Hx]; tauto.
    + apply set_eq. intros x. rewrite !elem_of_union. tauto.
    + reflexivity.
Qed.

Lemma elem_of_emails_seen (e : JSText) (l : list Order) :
  e ∈ emails_seen l <-> text_truthy e = true /\ exists o, In o l /\ email o = e.
Proof.
  unfold emails_seen. rewrite elem_of_list_to_set, list_elem_of_In, List.filter_In, in_map_iff.
  split.
  - intros [(o & He & Hin) Ht]. split; [exact Ht |]. exists o. split; assumption.
  - intros [Ht (o & Hin & He)]. split; [| exact Ht]. exists o. split; assumption.
Qed.

(** X7: the revenue of an order with an email goes to
    [returningCustomerRevenue] when an earlier order of the list has the same
    email, and to [newCustomerRevenue] when none has: the first order of a
    customer is new, every later one is returning. *)
Theorem first_order_new_later_orders_returning
    (storeSettings : option StoreSettings) (earlier : list Order) (o : Order) :
  text_truthy (email o) = true ->
  let r := parseFloat (total_price o) in
  let m := calculateDashboardMetrics earlier storeSettings in
  let m' := calculateDashboardMetrics (earlier ++ [o]) storeSettings in
  ((exists o', In o' earlier /\ email o' = email o) ->
   newCustomerRevenue m' = newCustomerRevenue m
   /\ returningCustomerRevenue m' = (returningCustomerRevenue m + r)%float)
  /\ ((forall o', In o' earlier -> email o' <> email o) ->
      newCustomerRevenue m' = (newCustomerRevenue m + r)%float
      /\ returningCustomerRevenue m' = returningCustomerRevenue m).
Proof.
  intros Ht. cbv zeta. unfold calculateDashboardMetrics. simpl.
  rewrite !processOrders_app. simpl. unfold processOrder. rewrite Ht.
  rewrite customerEmails_processOrders.
  split.
  - intros Hex. rewrite bool_decide_eq_true_2; [split; reflexivity |].
    apply elem_of_union_l, elem_of_emails_seen. split; assumption.
  - intros Hall. rewrite bool_decide_eq_false_2; [split; reflexivity |].
    intros Hin. apply elem_of_union in Hin. destruct Hin as [Hin | Hin].
    + apply elem_of_emails_seen in Hin. destruct Hin as [_ (o' & Ho' & He)].
      exact (Hall o' Ho' He).
    + unfold start in Hin. simpl in Hin. set_solver.
Qed.

Lemma first_and_later_orders_witness :
  text_truthy (email order_020) = true
  /\ returningCustomerRevenue
       (calculateDashboardMetrics ([order_010; order_030] ++ [order_020]) None)
     = (returningCustomerRevenue (calculateDashboardMetrics [order_010; order_030] None)
        + parseFloat (total_price order_020))%float.
Proof.
  split; [reflexivity |].
  apply (first_order_new_later_orders_returning None [order_010; order_030] order_020
           eq_refl).
  exists order_030. split; [right; left; reflexivity | reflexivity].
Defined.

Lemma distinct_customers_step (storeSettings : option StoreSettings)
    (l : list Order) (st : Running) :
  Forall (fun o => text_truthy (email o) = true) l ->
  NoDup (map email l) ->
  (forall o, In o l -> email o ∉ customerEmails st) ->
  run_newCustomerRevenue st = run_totalRevenue st ->
  run_newCustomerRevenue (processOrders storeSettings l st)
  = run_totalRevenue (processOrders storeSettings l st)
  /\ run_returningCustomerRevenue (processOrders storeSettings l st)
     = run_returningCustomerRevenue st.
Proof.
  unfold processOrders. revert st.
  induction l as [| o l IH]; intros st Ht Hnd Hfresh Heq; simpl; [split; [exact Heq | reflexivity] |].
  apply Forall_cons in Ht. destruct Ht as [Ho Ht].
  simpl in Hnd. apply NoDup_cons in Hnd. destruct Hnd as [Hnotin Hnd].
  assert (Hstep : processOrder storeSettings st o
                  = {| run_totalRevenue := (run_totalRevenue st + parseFloat (total_price o))%float;
                       run_totalCOGS := (run_totalCOGS st + orderCOGS storeSettings (line_items o))%float;
                       run_newCustomerRevenue := (run_newCustomerRevenue st + parseFloat (total_price o))%float;
                       run_returningCustomerRevenue := run_returningCustomerRevenue st;
                       customerEmails := {[ email o ]} ∪ customerEmails st |}).
  { unfold processOrder. rewrite Ho.
    rewrite bool_decide_eq_false_2; [reflexivity |]. apply Hfresh. now left. }
  rewrite Hstep. clear Hstep.
  match goal with |- context [fold_left _ l ?s] => specialize (IH s Ht Hnd) end.
  simpl in IH. apply IH; [| rewrite Heq; reflexivity].
  intros o' Ho' Hin. apply elem_of_union in Hin.
  destruct Hin as [Hin | Hin].
  - apply elem_of_singleton in Hin. apply Hnotin.
    rewrite list_elem_of_In, in_map_iff. exists o'. split; [exact Hin | exact Ho'].
  - apply (Hfresh o'); [now right | exact Hin].
Qed.

(** X8: when every order carries an email and no two orders carry the same
    one, nothing is returning-customer revenue and [newCustomerRevenue] is
    [totalRevenue], exactly. *)
Theorem distinct_customers_are_all_new
    (orders : list Order) (storeSettings : option StoreSettings) :
  Forall (fun o => text_truthy (email o) = true) orders ->
  NoDup (map email orders) ->
  let m := calculateDashboardMetrics orders storeSettings in
  returningCustomerRevenue m = 0%float
  /\ newCustomerRevenue m = totalRevenue m.
Proof.
  intros Ht Hnd. cbv zeta. unfold calculateDashboardMetrics. simpl.
  destruct (distinct_customers_step storeSettings orders start Ht Hnd) as [H1 H2].
  - intros o _. unfold start. simpl. set_solver.
  - reflexivity.
  - split; [exact H2 | exact H1].
Qed.

Lemma distinct_customers_witness :
  Forall (fun o => text_truthy (email o) = true) [order_030; order_010]
  /\ NoDup (map email [order_030; order_010])
  /\ newCustomerRevenue (calculateDashboardMetrics [order_030; order_010] None)
     = totalRevenue (calculateDashboardMetrics [order_030; order_010] None).
Proof.
  assert (Ht : Forall (fun o => text_truthy (email o) = true) [order_030; order_010])
    by (repeat constructor).
  assert (Hnd : NoDup (map email [order_030; order_010])).
  { simpl. apply NoDup_cons. split.
    - rewrite list_elem_of_In. simpl. intros [H | []]. discriminate.
    - apply NoDup_cons. split; [rewrite list_elem_of_In; intros [] | apply NoDup_nil_2]. }
  split; [exact Ht |]. split; [exact Hnd |].
  apply (distinct_customers_are_all_new [order_030; order_010] None Ht Hnd).
Defined.

(** ** Orders without cost information *)

Lemma mul_zero_l (u q : float) (s : bool) :
  Prim2SF u = S754_zero s -> Number_isFinite q = true ->
  exists s', Prim2SF (u * q) = S754_zero s'.
Proof.
  unfold Number_isFinite. intros Hu Hq. rewrite mul_spec, Hu.
  destruct (Prim2SF q) as [sq | sq | | sq mq eq]; try discriminate;
    simpl; eauto.
Qed.

Lemma sub_0_r (x : float) : (x - 0)%float = x.
Proof.
  apply Prim2SF_inj. rewrite sub_spec, Prim2SF_zero.
  destruct (Prim2SF x) as [[] | [] | |]; reflexivity.
Qed.

(** Line items that each add a zero leave the order's COGS at 0. *)
Lemma orderCOGS_zero (storeSettings : option StoreSettings) (items : list LineItem) :
  (forall item, In item items ->
     exists s, Prim2SF (itemCOGS storeSettings item) = S754_zero s) ->
  orderCOGS storeSettings items = 0%float.
Proof.
  unfold orderCOGS. intros Hz.
  induction items as [| item items IH]; simpl; [reflexivity |].
  destruct (Hz item) as [s Hs]; [now left |].
  rewrite (add_zero_r 0 _ s); [| reflexivity | exact Hs].
  apply IH. intros item' Hin. apply Hz. now right.
Qed.

(** X9: without cost information (no truthy default percentage, and no
    truthy [customCOGS] entry for any SKU ordered) and with finite
    quantities, [totalCOGS] is 0 and [grossProfit] is [totalRevenue]. *)
Theorem no_cost_information
    (orders : list Order) (storeSettings : option StoreSettings) :
  ToBoolean (defaultCOGSPercentage_of storeSettings) = false ->
  (forall o item, In o orders -> In item (line_items o) ->
     ToBoolean (customCOGS_of storeSettings (sku item)) = false
     /\ Number_isFinite (quantity item) = true) ->
  let m := calculateDashboardMetrics orders storeSettings in
  totalCOGS m = 0%float /\ grossProfit m = totalRevenue m.
Proof.
  intros Hd Hitems. cbv zeta.
  assert (Hcogs : run_totalCOGS (processOrders storeSettings orders start) = 0%float).
  { rewrite run_totalCOGS_fold. unfold start. simpl.
    induction orders as [| o orders IH]; simpl; [reflexivity |].
    rewrite orderCOGS_zero.
    - rewrite add_0_r by reflexivity. apply IH.
      intros o' item Ho'. apply Hitems. now right.
    - intros item Hin. destruct (Hitems o item) as [Hc Hq]; [now left | exact Hin |].
      unfold itemCOGS, unitCOGS. rewrite Hc, Hd. simpl.
      apply (mul_zero_l 0 (quantity item) false); [reflexivity | exact Hq]. }
  unfold calculateDashboardMetrics. simpl. rewrite Hcogs.
  split; [reflexivity | apply sub_0_r].
Qed.

Lemma no_cost_information_witness :
  ToBoolean (defaultCOGSPercentage_of None) = false
  /\ totalCOGS
       (calculateDashboardMetrics
          [{| total_price := Text "60.00"; email := Null; line_items := [tee] |}] None)
     = 0%float.
Proof.
  split; [reflexivity |].
  apply (no_cost_information
           [{| total_price := Text "60.00"; email := Null; line_items := [tee] |}] None
           eq_refl).
  intros o item [<- | []] [<- | []]. split; reflexivity.
Defined.

(** ** SKUs named like members of [Object.prototype] *)

(** X10: when the settings hold a [customCOGS] table, a line item whose SKU
    is not a key of the table but is the name of a member of
    [Object.prototype] ([constructor], [toString], [valueOf], ...) gets that
    member as its unit COGS; its COGS is [NaN], and so are [totalCOGS] and
    [grossProfit], whatever the price, the quantity and the default
    percentage. *)
Theorem inherited_member_as_unit_cost
    (orders : list Order) (pct : option float) (table : gmap string float)
    (o : Order) (item : LineItem) :
  In o orders -> In item (line_items o) ->
  table !! ToString (sku item) = None ->
  In (ToString (sku item)) Object_prototype ->
  let settings := Some {| defaultCOGSPercentage := pct; customCOGS := Some table |} in
  let m := calculateDashboardMetrics orders settings in
  unitCOGS settings item = JSObject
  /\ totalCOGS m = NaN /\ grossProfit m = NaN.
Proof.
  intros Ho Hitem Hnone Hproto. cbv zeta.
  assert (Hunit : unitCOGS (Some {| defaultCOGSPercentage := pct;
                                    customCOGS := Some table |}) item = JSObject).
  { unfold unitCOGS, customCOGS_of, Get. simpl. rewrite Hnone.
    rewrite bool_decide_eq_true_2 by (rewrite list_elem_of_In; exact Hproto).
    reflexivity. }
  split; [exact Hunit |].
  assert (Hcogs : run_totalCOGS
                    (processOrders (Some {| defaultCOGSPercentage := pct;
                                            customCOGS := Some table |}) orders start)
                  = nan).
  { rewrite run_totalCOGS_fold.
    apply (fold_add_nan_elem (fun o => orderCOGS _ (line_items o)) orders _ o Ho).
    unfold orderCOGS.
    apply (fold_add_nan_elem (itemCOGS _) _ _ item Hitem).
    unfold itemCOGS. rewrite Hunit. simpl. apply mul_nan_l. }
  unfold calculateDashboardMetrics. simpl. rewrite Hcogs.
  split; [reflexivity | apply sub_nan_r].
Qed.

Lemma inherited_member_witness :
  In "constructor" Object_prototype
  /\ totalCOGS
       (calculateDashboardMetrics
          [{| total_price := Text "9.00"; email := Null;
              line_items := [{| sku := Text "constructor"; quantity := 1;
                                price := Text "9.00" |}] |}]
          half_price_settings) = NaN.
Proof.
  split; [left; reflexivity |].
  apply (inherited_member_as_unit_cost
           [{| total_price := Text "9.00"; email := Null;
               line_items := [{| sku := Text "constructor"; quantity := 1;
                                 price := Text "9.00" |}] |}]
           (Some 50%float) ∅ _ _ (or_introl eq_refl) (or_introl eq_refl)).
  - apply lookup_empty.
  - left; reflexivity.
Defined.

(** ** Revenue and costs are computed apart *)

Lemma processOrder_revenue_side (s1 s2 : option StoreSettings)
    (st1 st2 : Running) (o1 o2 : Order) :
  run_totalRevenue st1 = run_totalRevenue st2 ->
  customers st1 = customers st2 ->
  total_price o1 = total_price o2 -> email o1 = email o2 ->
  run_totalRevenue (processOrder s1 st1 o1) = run_totalRevenue (processOrder s2 st2 o2)
  /\ customers (processOrder s1 st1 o1) = customers (processOrder s2 st2 o2).
Proof.
  unfold customers. intros Hr Hc Hp He. injection Hc as Hn Hret Hset.
  unfold processOrder. rewrite Hp, He, Hset, Hr, Hn, Hret.
  destruct (text_truthy (email o2)); [case_bool_decide |]; simpl; split; reflexivity.
Qed.

Lemma processOrders_revenue_side (s1 s2 : option StoreSettings)
    (f : Order -> list LineItem) (l : list Order) (st1 st2 : Running) :
  run_totalRevenue st1 = run_totalRevenue st2 ->
  customers st1 = customers st2 ->
  run_totalRevenue (processOrders s1 (map (fun o => with_line_items (f o) o) l) st1)
  = run_totalRevenue (processOrders s2 l st2)
  /\ customers (processOrders s1 (map (fun o => with_line_items (f o) o) l) st1)
     = customers (processOrders s2 l st2).
Proof.
  unfold processOrders. revert st1 st2.
  induction l as [| o l IH]; intros st1 st2 Hr Hc; simpl; [split; assumption |].
  destruct (processOrder_revenue_side s1 s2 st1 st2 (with_line_items (f o) o) o Hr Hc
              eq_refl eq_refl) as [Hr' Hc'].
  now apply IH.
Qed.

(** X11: the revenue metrics ignore costs: [totalRevenue],
    [newCustomerRevenue], [returningCustomerRevenue], [orderCount] and
    [averageOrderValue] are the same under any settings and for any line
    items of the orders; only [totalCOGS] and [grossProfit] depend on
    them. *)
Theorem revenue_metrics_ignore_costs
    (orders : list Order) (s1 s2 : option StoreSettings)
    (f : Order -> list LineItem) :
  let m := calculateDashboardMetrics orders s2 in
  let m' := calculateDashboardMetrics
              (map (fun o => with_line_items (f o) o) orders) s1 in
  totalRevenue m' = totalRevenue m
  /\ newCustomerRevenue m' = newCustomerRevenue m
  /\ returningCustomerRevenue m' = returningCustomerRevenue m
  /\ orderCount m' = orderCount m
  /\ averageOrderValue m' = averageOrderValue m.
Proof.
  cbv zeta.
  destruct (processOrders_revenue_side s1 s2 f orders start start eq_refl eq_refl)
    as [Hr Hc].
  unfold customers in Hc. injection Hc as Hn Hret _.
  unfold calculateDashboardMetrics. simpl. rewrite length_map, Hr.
  repeat split; assumption.
Qed.

(** ** More on the ad-spend handler *)

Section AdSpendMore.

Variable axios_get : string -> string -> JSText -> JSText -> option (list Insight).
Variables startDate endDate : JSText.

Lemma filter_meta_idem (l : list AdAccount) :
  filter (fun a => platform a = "meta") (filter (fun a => platform a = "meta") l)
  = filter (fun a => platform a = "meta") l.
Proof.
  induction l as [| a l IH]; [reflexivity |].
  rewrite filter_cons. destruct (decide (platform a = "meta")) as [Hm | Hm]; [| exact IH].
  rewrite filter_cons_True by exact Hm. rewrite IH. reflexivity.
Qed.

Lemma filter_google_idem (l : list AdAccount) :
  filter (fun a => platform a = "google") (filter (fun a => platform a = "google") l)
  = filter (fun a => platform a = "google") l.
Proof.
  induction l as [| a l IH]; [reflexivity |].
  rewrite filter_cons. destruct (decide (platform a = "google")) as [Hm | Hm]; [| exact IH].
  rewrite filter_cons_True by exact Hm. rewrite IH. reflexivity.
Qed.

Lemma filter_meta_google (l : list AdAccount) :
  filter (fun a => platform a = "meta") (filter (fun a => platform a = "google") l) = [].
Proof.
  induction l as [| a l IH]; [reflexivity |].
  rewrite filter_cons. destruct (decide (platform a = "google")) as [Hg | Hg]; [| exact IH].
  rewrite filter_cons_False by (rewrite Hg; discriminate). exact IH.
Qed.

Lemma filter_google_meta (l : list AdAccount) :
  filter (fun a => platform a = "google") (filter (fun a => platform a = "meta") l) = [].
Proof.
  induction l as [| a l IH]; [reflexivity |].
  rewrite filter_cons. destruct (decide (platform a = "meta")) as [Hg | Hg]; [| exact IH].
  rewrite filter_cons_False by (rewrite Hg; discriminate). exact IH.
Qed.

End AdSpendMore.

(** X12: only the accounts whose platform is exactly [meta] or [google]
    count, and the order in which the two kinds are mixed does not: the
    summary is the one of the Meta accounts followed by the Google accounts.
    Accounts of any other platform (or another spelling) are ignored. *)
Theorem ad_spend_groups_accounts_by_platform
    (axios_get : string -> string -> JSText -> JSText -> option (list Insight))
    (adAccounts : list AdAccount) (startDate endDate : JSText) :
  adSpend axios_get adAccounts startDate endDate
  = adSpend axios_get
      (filter (fun a => platform a = "meta") adAccounts
       ++ filter (fun a => platform a = "google") adAccounts)
      startDate endDate.
Proof.
  unfold adSpend. rewrite !filter_app.
  rewrite filter_meta_idem, filter_google_idem, filter_meta_google, filter_google_meta.
  rewrite app_nil_r. reflexivity.
Qed.

(** X13: [totalAdSpend] is the sum of the totals listed in [breakdown], and
    [breakdown] has one entry for each Meta and each Google account, so at
    most one for each account. *)
Theorem totalAdSpend_is_sum_of_breakdown
    (axios_get : string -> string -> JSText -> JSText -> option (list Insight))
    (adAccounts : list AdAccount) (startDate endDate : JSText) :
  let result := adSpend axios_get adAccounts startDate endDate in
  totalAdSpend result = sum (map entry_total (breakdown result))
  /\ length (breakdown result)
     = (length (filter (fun a => platform a = "meta") adAccounts)
        + length (filter (fun a => platform a = "google") adAccounts))%nat
  /\ (length (breakdown result) <= length adAccounts)%nat.
Proof.
  cbv zeta.
  assert (Hlen : length (breakdown (adSpend axios_get adAccounts startDate endDate))
                 = (length (filter (fun a => platform a = "meta") adAccounts)
                    + length (filter (fun a => platform a = "google") adAccounts))%nat).
  { unfold adSpend. simpl. rewrite !fold_record_spend. simpl.
    rewrite length_app, !length_map. reflexivity. }
  split; [| split; [exact Hlen |]].
  - unfold adSpend, sum. simpl. rewrite !fold_record_spend. simpl.
    rewrite map_app, fold_left_app, !map_map. simpl.
    rewrite !fold_add_map. reflexivity.
  - rewrite Hlen. clear Hlen.
    induction adAccounts as [| a l IH]; [simpl; lia |].
    rewrite !filter_cons. simpl.
    destruct (decide (platform a = "meta")) as [Hm | Hm];
      destruct (decide (platform a = "google")) as [Hg | Hg]; simpl; try lia.
    rewrite Hm in Hg. discriminate.
Qed.

(** X14: a read that succeeds but lists a day whose [spend] does not parse
    is not isolated: the total of that account is [NaN], and so is
    [totalAdSpend]. *)
Theorem unparsable_spend_spoils_total
    (axios_get : string -> string -> JSText -> JSText -> option (list Insight))
    (adAccounts : list AdAccount) (startDate endDate : JSText)
    (account : AdAccount) (data : list Insight) (day : Insight) :
  In account adAccounts -> platform account = "meta" ->
  axios_get (accountId account) (accessToken account) startDate endDate = Some data ->
  In day data -> isNaN (parseFloat (spend day)) = true ->
  total (fetchMetaAdSpend axios_get (accountId account) (accessToken account)
           startDate endDate) = NaN
  /\ totalAdSpend (adSpend axios_get adAccounts startDate endDate) = NaN.
Proof.
  intros Hin Hmeta Hget Hday Hnan.
  assert (Htotal : total (fetchMetaAdSpend axios_get (accountId account)
                            (accessToken account) startDate endDate) = nan).
  { unfold fetchMetaAdSpend. rewrite Hget. simpl.
    apply (fold_add_nan_elem (fun d => parseFloat (spend d)) data _ day Hday).
    now apply is_nan_eq. }
  split; [exact Htotal |].
  unfold adSpend. simpl. rewrite !fold_record_spend. simpl.
  rewrite (fold_add_nan_elem
             (fun a => total (fetchMetaAdSpend axios_get (accountId a) (accessToken a)
                                startDate endDate))
             _ _ account).
  - apply (fold_add_nan (fun _ => 0%float)).
  - rewrite <- list_elem_of_In. apply list_elem_of_filter. split; [exact Hmeta |].
    rewrite list_elem_of_In. exact Hin.
  - exact Htotal.
Qed.

Lemma unparsable_spend_witness :
  isNaN (parseFloat Null) = true
  /\ totalAdSpend
       (adSpend world_with_bad_day sample_accounts (Text "2024-01-01") (Text "2024-01-31"))
     = NaN.
Proof.
  split; [reflexivity |].
  apply (unparsable_spend_spoils_total world_with_bad_day sample_accounts
           (Text "2024-01-01") (Text "2024-01-31")
           {| platform := "meta"; accountId := "act_1"; accessToken := "t1" |}
           [ {| spend := Text "12.25" |}; {| spend := Null |} ]
           {| spend := Null |}).
  - right; left; reflexivity.
  - reflexivity.
  - reflexivity.
  - right; left; reflexivity.
  - reflexivity.
Defined.

Lemma fetchMetaAdSpend_failures_as_empty
    (axios_get : string -> string -> JSText -> JSText -> option (list Insight))
    (accountId accessToken : string) (startDate endDate : JSText) :
  fetchMetaAdSpend (failures_as_empty axios_get) accountId accessToken startDate endDate
  = fetchMetaAdSpend axios_get accountId accessToken startDate endDate.
Proof.
  unfold fetchMetaAdSpend, failures_as_empty.
  destruct (axios_get accountId accessToken startDate endDate); reflexivity.
Qed.

(** X15: the summary does not tell a failed read from an account without
    spend: it is the same when every failing read returns an empty list of
    days instead. *)
Theorem failed_read_looks_like_no_spend
    (axios_get : string -> string -> JSText -> JSText -> option (list Insight))
    (adAccounts : list AdAccount) (startDate endDate : JSText) :
  adSpend (failures_as_empty axios_get) adAccounts startDate endDate
  = adSpend axios_get adAccounts startDate endDate.
Proof.
  unfold adSpend. f_equal; f_equal; f_equal.
  all: generalize (0%float, @nil BreakdownEntry);
    induction (filter (fun a => platform a = "meta") adAccounts) as [| a l IH];
    intros acc; simpl; [reflexivity |];
    rewrite fetchMetaAdSpend_failures_as_empty; apply IH.
Qed.

(** ** Costs are computed apart from revenue *)

(** X16: [totalCOGS] ignores the revenue side: it is the same for any
    [total_price] and any [email] of the orders. *)
Theorem totalCOGS_ignores_prices_and_emails
    (orders : list Order) (storeSettings : option StoreSettings)
    (p e : Order -> JSText) :
  totalCOGS
    (calculateDashboardMetrics
       (map (fun o => {| total_price := p o; email := e o;
                         line_items := line_items o |}) orders)
       storeSettings)
  = totalCOGS (calculateDashboardMetrics orders storeSettings).
Proof.
  unfold calculateDashboardMetrics. simpl. rewrite !run_totalCOGS_fold.
  generalize (run_totalCOGS start).
  induction orders as [| o orders IH]; intros acc; simpl; [reflexivity |].
  apply IH.
Qed.

(** ** CSV files with other column names *)

(** X17: the SKU is read from the column [SKU], [sku] or [Sku] and the COGS
    from [COGS], [cogs] or [Cogs], and from no other: records that lack all
    three SKU columns, or all three COGS columns, leave the table empty and
    [itemsProcessed] at 0. *)
Theorem other_column_names_give_empty_table (records : list Row) :
  (forall row, In row records ->
     (row !! "SKU" = None /\ row !! "sku" = None /\ row !! "Sku" = None)
     \/ (row !! "COGS" = None /\ row !! "cogs" = None /\ row !! "Cogs" = None)) ->
  processRecords records = ∅ /\ itemsProcessed records = 0%nat.
Proof.
  intros Hrows.
  assert (Hempty : processRecords records = ∅).
  { rewrite processRecords_valid.
    replace (List.filter row_valid records) with (@nil Row); [reflexivity |].
    symmetry. induction records as [| row records IH]; [reflexivity |].
    simpl.
    assert (Hv : row_valid row = false).
    { unfold row_valid, row_sku, row_cogs, cell.
      destruct (Hrows row) as [(H1 & H2 & H3) | (H1 & H2 & H3)]; [now left | |];
        rewrite H1, H2, H3; [reflexivity |].
      apply andb_false_r. }
    rewrite Hv. apply IH. intros r Hr. apply Hrows. now right. }
  split; [exact Hempty |].
  unfold itemsProcessed. rewrite Hempty. apply map_size_empty.
Qed.

Lemma other_column_names_witness :
  row_other_header !! "SKU" = None
  /\ itemsProcessed [row_other_header] = 0%nat.
Proof.
  split; [vm_compute; reflexivity |].
  apply (other_column_names_give_empty_table [row_other_header]).
  intros row [<- | []]. left. vm_compute. repeat split.
Defined.
